(** * Reseller key-generation page (client/src/pages/reseller/generate.tsx)

    A shallow embedding of the page that lets a reseller generate license
    keys: the day/credit tier table, the zod form schema, the mutation that
    builds and posts the generation payload, the cost pre-check that drives
    the alert and the submit button, and the list of generated keys.

    Conventions of the embedding.
    - A JavaScript number is modelled by its exact value: an integer by [Z],
      a credit amount by [Q]; [NaN] and [undefined] are the [None] of an
      [option].  This is the value the double holds on the safe integers
      ([Js.isSafeInteger], magnitudes up to 2^53 - 1) and on the products
      that are doubles themselves ([Js.isDouble]); beyond them a double
      rounds, and the statements that compute an exact figure carry the
      range as a hypothesis.  -0 is identified with 0, which [===], [<],
      [||] and [*] cannot tell apart here.
    - A string is a [string] whose characters are read as code units below
      256.
    - Asynchronous code is a finite tree of requests ([Api]); the answers of
      the network are supplied by a [Server] when the tree is run. *)

From Stdlib Require Import ZArith QArith Bool List Lia.
From Stdlib Require Import Strings.Ascii Strings.String DecimalString DecimalPos.
Import ListNotations.

Open Scope string_scope.
Open Scope Z_scope.

(** ** JavaScript primitives used by the page *)

Module Js.

(** [Number.MAX_SAFE_INTEGER]. *)
Definition MAX_SAFE_INTEGER : Z := 2 ^ 53 - 1.

(** [Number.isSafeInteger(n)] for an integer [n]: every integer of this
    range is a double, [toString] prints it in plain decimal digits and
    [parseInt] reads it back exactly. *)
Definition isSafeInteger (n : Z) : Prop :=
  - MAX_SAFE_INTEGER <= n <= MAX_SAFE_INTEGER.


(** [StrWhiteSpaceChar] restricted to code units below 256: TAB, LF, VT,
    FF, CR, SP and NBSP. *)
Definition isWhiteSpace (c : ascii) : bool :=
  let n := Z.of_nat (nat_of_ascii c) in
  ((9 <=? n) && (n <=? 13)) || (n =? 32) || (n =? 160).

Fixpoint trimStart (s : string) : string :=
  match s with
  | String c rest => if isWhiteSpace c then trimStart rest else s
  | EmptyString => s
  end.

(** Value of a digit character in radix 36 ([0-9], [a-z], [A-Z]). *)
Definition digitValue (c : ascii) : option Z :=
  let n := Z.of_nat (nat_of_ascii c) in
  if (48 <=? n) && (n <=? 57) then Some (n - 48)
  else if (97 <=? n) && (n <=? 122) then Some (n - 87)
  else if (65 <=? n) && (n <=? 90) then Some (n - 55)
  else None.

(** The longest prefix of radix-[R] digits, as its integer value; [acc] is
    the value of the digits read so far, [None] when there are none. *)
Fixpoint digits (R : Z) (s : string) (acc : option Z) : option Z :=
  match s with
  | String c rest =>
      match digitValue c with
      | Some d =>
          if d <? R
          then digits R rest (Some (R * match acc with Some a => a | None => 0 end + d))
          else acc
      | None => acc
      end
  | EmptyString => acc
  end.

(** [parseInt(s)] with no radix argument: leading white space is skipped,
    one sign is read, a [0x]/[0X] prefix selects radix 16, and the longest
    digit prefix is converted; [None] is [NaN].  The result is the exact
    integer of the digits: the number the source obtains when that integer
    is safe ([isSafeInteger]); a longer digit string is rounded to a double
    there. *)
Definition parseInt (s : string) : option Z :=
  let s0 := trimStart s in
  let '(sign, s1) :=
    match s0 with
    | String "-" rest => (-1, rest)
    | String "+" rest => (1, rest)
    | _ => (1, s0)
    end in
  let '(R, s2) :=
    match s1 with
    | String "0" (String "x" rest) => (16, rest)
    | String "0" (String "X" rest) => (16, rest)
    | _ => (10, s1)
    end in
  option_map (Z.mul sign) (digits R s2 None).

(** [n.toString()] of an integer: its decimal digits, which is what the
    source prints for a safe integer ([isSafeInteger]); from 1e21 on the
    source prints an exponent form instead. *)
Definition toString (n : Z) : string := NilZero.string_of_int (Z.to_int n).

(** [x || 0] on a number that may be [undefined]: the falsy numbers are 0
    and [NaN]. *)
Definition orZero (x : option Q) : Q :=
  match x with
  | Some q => if Qeq_bool q 0 then 0%Q else q
  | None => 0%Q
  end.

(** [x < y] on numbers. *)
Definition lt (x y : Q) : bool := negb (Qle_bool y x).

(** [s || undefined] on an optional string: the empty string is falsy. *)
Definition orUndefined (s : option string) : option string :=
  match s with
  | Some "" => None
  | other => other
  end.

End Js.

(** ** Pricing tiers *)

Record Tier := mkTier { days : Z; credits : Q; label : string }.

Definition DAY_CREDIT_TIERS : list Tier :=
  [ mkTier 5 0.5 "5 Days / 0.5 Credit";
    mkTier 10 1 "10 Days / 1 Credit";
    mkTier 20 2 "20 Days / 2 Credits";
    mkTier 30 3 "30 Days / 3 Credits";
    mkTier 60 6 "60 Days / 6 Credits" ].

(** [DAY_CREDIT_TIERS.find(t => t.days === selectedDays)]; [===] against
    [NaN] is false for every tier. *)
Definition findTier (selectedDays : option Z) : option Tier :=
  match selectedDays with
  | Some d => find (fun t => days t =? d) DAY_CREDIT_TIERS
  | None => None
  end.

(** The credit cost of one key of [d] days: the lookup every call site of
    the page performs, [None] when [d] has no tier. *)
Definition tierCost (d : Z) : option Q := option_map credits (findTier (Some d)).

(** ** The form *)

(** The [keyCount] field as the input's [onChange] leaves it: a number, or
    the empty string while the input is blank. *)
Inductive KeyCountField :=
| CountNumber (n : Z)
| CountBlank.

(** [ToNumber] of the field, as [*] applies it: [''] converts to 0. *)
Definition countToNumber (k : KeyCountField) : Z :=
  match k with
  | CountNumber n => n
  | CountBlank => 0
  end.

(** The raw field values held by react-hook-form. *)
Record FormState := mkForm {
  f_game : string;
  f_deviceLimit : string;
  f_dayTier : string;
  f_keyCount : KeyCountField;
  f_customKey : option string
}.

(** [GenerateKeyValues = z.infer<typeof generateKeySchema>]. *)
Record GenerateKeyValues := mkValues {
  game : string;
  deviceLimit : string;
  dayTier : string;
  keyCount : Z;
  customKey : option string
}.

Definition defaultValues : FormState := mkForm "" "1" "30" (CountNumber 1) (Some "").

Inductive FieldName := GameName | DeviceLimitName | DayTierName | KeyCountName.

Definition FieldError : Type := FieldName * string.

(** [generateKeySchema]: every issue is collected; the parsed values are
    returned only when there is none.  The default of 1 for [keyCount]
    applies to an [undefined] field, which the form never holds. *)
Definition generateKeySchema (f : FormState) : list FieldError + GenerateKeyValues :=
  let gameIssues :=
    if (String.length (f_game f) <? 1)%nat then [(GameName, "Game selection is required")] else [] in
  let deviceIssues :=
    if (String.length (f_deviceLimit f) <? 1)%nat then [(DeviceLimitName, "Device limit is required")] else [] in
  let dayIssues :=
    if (String.length (f_dayTier f) <? 1)%nat then [(DayTierName, "Day selection is required")] else [] in
  let countIssues :=
    match f_keyCount f with
    | CountNumber n => if n <? 1 then [(KeyCountName, "Must generate at least 1 key")] else []
    | CountBlank => [(KeyCountName, "Expected number, received string")]
    end in
  match (gameIssues ++ deviceIssues ++ dayIssues ++ countIssues)%list, f_keyCount f with
  | [], CountNumber n =>
      inr (mkValues (f_game f) (f_deviceLimit f) (f_dayTier f) n (f_customKey f))
  | issues, _ => inl issues
  end.

(** ** The network, as the mutation sees it *)

(** The body posted to [/api/reseller/keys/generate].  [deviceLimit] is
    [None] when [parseInt] gave [NaN]; [keyString] is [None] when the field
    is [undefined] and therefore left out of the JSON. *)
Record Payload := mkPayload {
  p_game : string;
  p_deviceLimit : option Z;
  p_days : Z;
  p_keyString : option string;
  p_count : Z;
  p_resellerId : Z
}.

(** The body of [/api/auth/session]; a missing [user] or [id] is [None]. *)
Record User := mkUser { id : option Z }.
Record SessionData := mkSession { isAuthenticated : bool; user : option User }.

(** A key record of the generation response. *)
Record KeyRecord := mkKey { keyString : string; expiryAt : Z }.

(** The JSON body of the generation response: [keys] on success, [message]
    on failure; either may be missing. *)
Record GenerateBody := mkBody { message : option string; keys : option (list KeyRecord) }.

(** What [await apiRequest(...)] gives: it throws, or it yields a response
    with its [ok] flag and the outcome of [response.json()], which is the
    parsed body or the message of the error it throws. *)
Inductive Fetched (B : Type) : Type :=
| Rejected (error : string)
| Responded (ok : bool) (json : string + B).
Arguments Rejected {B} error.
Arguments Responded {B} ok json.

(** An asynchronous computation of the page: it returns, throws an [Error]
    with a message, or issues one of the two requests of the mutation and
    continues with what was fetched. *)
Inductive Api (A : Type) : Type :=
| Return (a : A)
| Throw (error : string)
| GetSession (k : Fetched SessionData -> Api A)
| PostGenerate (payload : Payload) (k : Fetched GenerateBody -> Api A).
Arguments Return {A} a.
Arguments Throw {A} error.
Arguments GetSession {A} k.
Arguments PostGenerate {A} payload k.

Fixpoint bind {A B} (m : Api A) (f : A -> Api B) : Api B :=
  match m with
  | Return a => f a
  | Throw e => Throw e
  | GetSession k => GetSession (fun r => bind (k r) f)
  | PostGenerate p k => PostGenerate p (fun r => bind (k r) f)
  end.

(** [try { m } catch (error) { handler(error.message) }]. *)
Fixpoint tryCatch {A} (m : Api A) (handler : string -> Api A) : Api A :=
  match m with
  | Return a => Return a
  | Throw e => handler e
  | GetSession k => GetSession (fun r => tryCatch (k r) handler)
  | PostGenerate p k => PostGenerate p (fun r => tryCatch (k r) handler)
  end.

Declare Scope api_scope.
Delimit Scope api_scope with api.
Notation "x <- m ;; k" := (bind m (fun x => k))
  (at level 61, m at next level, right associativity) : api_scope.

(** [await apiRequest(...)]: a rejected promise throws at the [await]. *)
Definition awaited {B} (r : Fetched B) : Api (bool * (string + B)) :=
  match r with
  | Rejected e => Throw e
  | Responded ok json => Return (ok, json)
  end.

Definition apiRequestSession : Api (bool * (string + SessionData)) :=
  GetSession awaited.

Definition apiRequestGenerate (payload : Payload) : Api (bool * (string + GenerateBody)) :=
  PostGenerate payload awaited.

(** [await response.json()]. *)
Definition json {B} (response : bool * (string + B)) : Api B :=
  match snd response with
  | inl e => Throw e
  | inr body => Return body
  end.

(** [m || fallback] on a message that may be missing or empty. *)
Definition orMessage (m : option string) (fallback : string) : string :=
  match m with
  | Some "" | None => fallback
  | Some text => text
  end.

(** [!sessionData.isAuthenticated || !sessionData.user || !sessionData.user.id];
    an [id] of 0 is falsy.  The reseller id is returned when the test fails. *)
Definition sessionUserId (sessionData : SessionData) : option Z :=
  if negb (isAuthenticated sessionData) then None
  else match user sessionData with
       | None => None
       | Some u =>
           match id u with
           | Some i => if i =? 0 then None else Some i
           | None => None
           end
       end.

(** ** [generateKeyMutation] *)

(** The [payload] object of the mutation: the device limit parsed as a
    number, the days of the tier found, the custom key or [undefined], the
    count, and the id of the session's user. *)
Definition payloadOf (values : GenerateKeyValues) (tier : Tier) (userId : Z) : Payload :=
  mkPayload (game values) (Js.parseInt (deviceLimit values)) (days tier)
            (Js.orUndefined (customKey values)) (keyCount values) userId.

Definition mutationFn (values : GenerateKeyValues) : Api GenerateBody :=
  tryCatch
    (let selectedDays := Js.parseInt (dayTier values) in
     match findTier selectedDays with
     | None => Throw "Invalid day tier selected"
     | Some tier =>
         (sessionResponse <- apiRequestSession ;;
          sessionData <- json sessionResponse ;;
          match sessionUserId sessionData with
          | None => Throw "User session not found. Please log in again."
          | Some userId =>
              let payload := payloadOf values tier userId in
              response <- apiRequestGenerate payload ;;
              if negb (fst response)
              then errorData <- json response ;;
                   Throw (orMessage (message errorData) "Failed to generate key")
              else data <- json response ;;
                   Return data
          end)%api
     end)
    (fun error => Throw (orMessage (Some error) "Failed to generate key")).

(** The answers of the network to one run of the mutation. *)
Record Server := mkServer {
  session : Fetched SessionData;
  generate : Payload -> Fetched GenerateBody
}.

Inductive Request :=
| SessionRequest
| GenerateRequest (payload : Payload).

(** Runs a computation against a server: the requests issued, in order, and
    the outcome (the thrown message or the value). *)
Fixpoint run {A} (srv : Server) (m : Api A) : list Request * (string + A) :=
  match m with
  | Return a => ([], inr a)
  | Throw e => ([], inl e)
  | GetSession k =>
      let '(trace, r) := run srv (k (session srv)) in (SessionRequest :: trace, r)
  | PostGenerate p k =>
      let '(trace, r) := run srv (k (generate srv p)) in (GenerateRequest p :: trace, r)
  end.

(** ** The page: state, rendering and event handlers *)

(** The data of the [/api/reseller/profile] query. *)
Record Profile := mkProfile { profileCredits : Q }.

Inductive ToastVariant := DefaultToast | Destructive.

Record Toast := mkToast { title : string; description : string; variant : ToastVariant }.

(** The state behind one rendering of [ResellerGenerate].  [pending] holds
    the outcome of a mutation that has been started and has not settled yet
    ([generateKeyMutation.isPending] is true exactly then); [sent] logs the
    requests issued so far. *)
Record Page := mkPage {
  form : FormState;
  formErrors : list FieldError;
  profile : option Profile;
  pending : option (string + GenerateBody);
  generatedKeys : list string;
  toasts : list Toast;
  clipboard : option string;
  sent : list Request
}.

Definition initialPage : Page :=
  mkPage defaultValues [] None None [] [] None [].

Definition isPending (s : Page) : bool :=
  match pending s with Some _ => true | None => false end.

(** [parseInt(form.watch("dayTier") || "30")]. *)
Definition selectedDays (f : FormState) : option Z :=
  Js.parseInt (match f_dayTier f with "" => "30" | chosen => chosen end).

(** [tier?.credits || 0]. *)
Definition costPerKey (f : FormState) : Q :=
  Js.orZero (option_map credits (findTier (selectedDays f))).

(** [(tier?.credits || 0) * form.watch("keyCount")], as the exact product:
    the product of the source whenever the exact product is a double
    ([Js.isDouble]), as it is for every tier and every count whose sixfold
    is a safe integer; beyond that the source rounds it. *)
Definition totalCredits (f : FormState) : Q :=
  (costPerKey f * inject_Z (countToNumber (f_keyCount f)))%Q.

(** [profile?.credits || 0]. *)
Definition availableCredits (s : Page) : Q :=
  Js.orZero (option_map profileCredits (profile s)).

(** [(profile?.credits || 0) < totalCredits]. *)
Definition insufficient (s : Page) : bool :=
  Js.lt (availableCredits s) (totalCredits (form s)).

(** The three texts of the submit button: "Generating...", "INSUFFICIENT
    CREDITS" and "GENERATE KEYS" (with their decorations). *)
Inductive SubmitLabel := Generating | InsufficientCreditsLabel | GenerateKeysLabel.

(** What the page shows, as far as it depends on the state: the cost alert,
    the submit button and the panel of generated keys ([None] when the panel
    is not rendered).  [needMore] is [Some] exactly when the shortage line
    is rendered; it holds the amount the page hands to [toFixed(1)], not
    the text that results. *)
Record View := mkView {
  alertTitle : string;
  shownCostPerKey : Q;
  shownKeyCount : KeyCountField;
  shownTotal : Q;
  shownAvailable : Q;
  needMore : option Q;
  submitDisabled : bool;
  submitLabel : SubmitLabel;
  keysPanel : option (list string)
}.

Definition ResellerGenerate (s : Page) : View :=
  mkView
    (if insufficient s then "Insufficient Credits!" else "Cost Information")
    (costPerKey (form s))
    (f_keyCount (form s))
    (totalCredits (form s))
    (availableCredits s)
    (if insufficient s then Some (totalCredits (form s) - availableCredits s)%Q else None)
    (isPending s || insufficient s)
    (if isPending s then Generating
     else if insufficient s then InsufficientCreditsLabel else GenerateKeysLabel)
    (if (0 <? List.length (generatedKeys s))%nat then Some (generatedKeys s) else None).

(** The options offered by the three selects. *)
Definition gameOptions : list string :=
  ["PUBG MOBILE"; "LAST ISLAND OF SURVIVAL"; "FREE FIRE"].

Definition deviceLimitOptions : list string := ["1"; "2"; "100"].

Definition dayTierOptions : list string :=
  map (fun tier => Js.toString (days tier)) DAY_CREDIT_TIERS.

Definition setForm (s : Page) (f : FormState) : Page :=
  mkPage f (formErrors s) (profile s) (pending s) (generatedKeys s) (toasts s)
         (clipboard s) (sent s).

Definition addToast (s : Page) (t : Toast) : Page :=
  mkPage (form s) (formErrors s) (profile s) (pending s) (generatedKeys s)
         (toasts s ++ [t])%list (clipboard s) (sent s).

(** [onChange] of a select: the value of the chosen item, if there is one. *)
Definition choose (options : list string) (i : nat) (current : string) : string :=
  nth i options current.

(** [onChange] of the key-count input. *)
Definition changeKeyCount (value : string) (current : KeyCountField) : KeyCountField :=
  match value with
  | "" => CountBlank
  | _ => match Js.parseInt value with
         | Some parsed => CountNumber parsed
         | None => current
         end
  end.

(** [onSuccess] of the mutation (the two query invalidations only trigger
    refetches, which arrive as later events). *)
Definition onSuccess (data : GenerateBody) (s : Page) : Page :=
  match keys data with
  | Some (first :: more) =>
      let ks := first :: more in
      mkPage (form s) (formErrors s) (profile s) (pending s)
             (map keyString ks)
             (toasts s ++ [mkToast "Success"
                ("Generated " ++ Js.toString (Z.of_nat (List.length ks)) ++ " key(s) successfully")
                DefaultToast])%list
             (clipboard s) (sent s)
  | _ => s
  end.

(** [onError] of the mutation. *)
Definition onError (error : string) (s : Page) : Page :=
  addToast s (mkToast "Error" (orMessage (Some error) "Failed to generate keys") Destructive).

Definition setPending (s : Page) (p : option (string + GenerateBody)) : Page :=
  mkPage (form s) (formErrors s) (profile s) p (generatedKeys s) (toasts s)
         (clipboard s) (sent s).

(** [form.handleSubmit(onSubmit)]: the resolver runs first; [onSubmit], hence
    the mutation, is reached only with parsed values. *)
Definition handleSubmit (srv : Server) (s : Page) : Page :=
  match generateKeySchema (form s) with
  | inl issues =>
      mkPage (form s) issues (profile s) (pending s) (generatedKeys s) (toasts s)
             (clipboard s) (sent s)
  | inr values =>
      let '(trace, outcome) := run srv (mutationFn values) in
      mkPage (form s) [] (profile s) (Some outcome) (generatedKeys s) (toasts s)
             (clipboard s) (sent s ++ trace)%list
  end.

(** What can happen to the page. *)
Inductive Event :=
| SelectGame (item : nat)
| SelectDeviceLimit (item : nat)
| SelectDayTier (item : nat)
| ChangeKeyCount (value : string)
| ChangeCustomKey (value : string)
| ClickRandom
| ClickSubmit (srv : Server)
| Settled
| ProfileFetched (data : option Profile)
| ClickCopy (item : nat).

Section Handlers.

(** [generateRandomKey] of [@/lib/utils], which is not part of the page. *)
Variable generateRandomKey : string -> string.

Definition handleGenerateRandomKey (s : Page) : Page :=
  let f := form s in
  match f_game f with
  | "" => addToast s (mkToast "Error" "Please select a game first" Destructive)
  | chosen =>
      setForm s (mkForm (f_game f) (f_deviceLimit f) (f_dayTier f) (f_keyCount f)
                        (Some (generateRandomKey chosen)))
  end.

Definition copyToClipboard (text : string) (s : Page) : Page :=
  mkPage (form s) (formErrors s) (profile s) (pending s) (generatedKeys s)
         (toasts s ++ [mkToast "Copied" "Key copied to clipboard" DefaultToast])%list
         (Some text) (sent s).

(** One event.  A disabled submit button does not submit the form, so
    [ClickSubmit] reaches [handleSubmit] only when the button is rendered
    enabled; [Settled] delivers the outcome of the mutation in flight. *)
Definition step (s : Page) (e : Event) : Page :=
  let f := form s in
  match e with
  | SelectGame i =>
      setForm s (mkForm (choose gameOptions i (f_game f)) (f_deviceLimit f)
                        (f_dayTier f) (f_keyCount f) (f_customKey f))
  | SelectDeviceLimit i =>
      setForm s (mkForm (f_game f) (choose deviceLimitOptions i (f_deviceLimit f))
                        (f_dayTier f) (f_keyCount f) (f_customKey f))
  | SelectDayTier i =>
      setForm s (mkForm (f_game f) (f_deviceLimit f)
                        (choose dayTierOptions i (f_dayTier f))
                        (f_keyCount f) (f_customKey f))
  | ChangeKeyCount value =>
      setForm s (mkForm (f_game f) (f_deviceLimit f) (f_dayTier f)
                        (changeKeyCount value (f_keyCount f)) (f_customKey f))
  | ChangeCustomKey value =>
      setForm s (mkForm (f_game f) (f_deviceLimit f) (f_dayTier f) (f_keyCount f)
                        (Some value))
  | ClickRandom => handleGenerateRandomKey s
  | ClickSubmit srv =>
      if submitDisabled (ResellerGenerate s) then s else handleSubmit srv s
  | Settled =>
      match pending s with
      | Some (inr data) => onSuccess data (setPending s None)
      | Some (inl error) => onError error (setPending s None)
      | None => s
      end
  | ProfileFetched data =>
      mkPage (form s) (formErrors s) data (pending s) (generatedKeys s) (toasts s)
             (clipboard s) (sent s)
  | ClickCopy i =>
      match nth_error (generatedKeys s) i with
      | Some key => copyToClipboard key s
      | None => s
      end
  end.

(** The page after a sequence of events, from its first rendering. *)
Definition after (events : list Event) : Page := fold_left step events initialPage.

End Handlers.

(** ** The server-side key generator *)

Module KeyGenerator.

(** Modelled from the spec: the error kinds of [generate] (sections 4.3
    and 6); the server's code is not among the sources. *)
Inductive Error :=
| InvalidTier
| InvalidCount
| InvalidDeviceLimit
| InsufficientCredit
| DuplicateKey
| GenerationFailed.

(** Modelled from the spec: the part of the store a generation touches
    (section 3), the credit balance of each reseller and the key strings
    in use in the whole system; the server's code is not among the sources. *)
Record Store := mkStore { balance : Z -> Q; keyStrings : list string }.

(** Modelled from the spec: whether a key string is already in use
    (section 3, uniqueness of [keyString]); the server's code is not among the
    sources. *)
Definition inUse (k : string) (used : list string) : bool :=
  existsb (String.eqb k) used.

(** Modelled from the spec: [debit] of the CreditLedger (section 4.1),
    whose code is not among the sources: it succeeds only if the balance covers
    the amount and then decrements it, else the balance is unchanged. *)
Definition debit (st : Store) (resellerId : Z) (amount : Q) : option Store :=
  if Qle_bool amount (balance st resellerId)
  then Some (mkStore
               (fun r => if r =? resellerId then (balance st r - amount)%Q else balance st r)
               (keyStrings st))
  else None.

Section Generator.

(** Modelled from the spec: the pseudorandom source of section 4.3, step 4
    (the server's code is not among the sources): the string, game prefix and
    suffix, that the [n]-th draw yields for a game; [attempts] draws are
    allowed per key before generation gives up; [now] is the time of the
    request. *)
Variable candidate : string -> nat -> string.
Variable attempts : nat.
Variable now : Z.

(** Modelled from the spec: a generated string is rejected and drawn
    again on collision (section 4.3, step 4); the server's code is
    not among the sources.  Returns the string and the position of the next draw. *)
Fixpoint fresh (left : nat) (gameName : string) (used : list string) (draw : nat)
  : option (string * nat) :=
  match left with
  | O => None
  | S left' =>
      if inUse (candidate gameName draw) used
      then fresh left' gameName used (S draw)
      else Some (candidate gameName draw, S draw)
  end.

(** Modelled from the spec: [n] generated unique strings (section 4.3,
    step 4), each distinct from the strings in use and from the ones
    generated before it; the server's code is not among the sources. *)
Fixpoint freshKeys (n : nat) (gameName : string) (used : list string) (draw : nat)
  : option (list string) :=
  match n with
  | O => Some []
  | S n' =>
      match fresh attempts gameName used draw with
      | None => None
      | Some (k, draw') =>
          option_map (cons k) (freshKeys n' gameName (k :: used) draw')
      end
  end.

(** Modelled from the spec: the key strings of a batch (section 4.3,
    step 4): the first is the custom string if one is supplied and not
    in use, the remaining ones are generated; the server's code is
    not among the sources. *)
Definition createKeys (count : nat) (gameName : string) (custom : option string)
           (used : list string) : Error + list string :=
  match custom, count with
  | Some c, S others =>
      if inUse c used then inl DuplicateKey
      else match freshKeys others gameName (c :: used) O with
           | Some rest => inr (c :: rest)
           | None => inl GenerationFailed
           end
  | _, _ =>
      match freshKeys count gameName used O with
      | Some all => inr all
      | None => inl GenerationFailed
      end
  end.

(** Modelled from the spec: [generate] of the KeyGenerator (section 4.3,
    steps 1 to 5), applied to the payload the page posts; the server's code
    is not among the sources.  On any failure the store is the one given. *)
Definition generate (st : Store) (p : Payload) : Error + (list KeyRecord * Store) :=
  match tierCost (p_days p) with
  | None => inl InvalidTier
  | Some cost =>
      if p_count p <? 1 then inl InvalidCount
      else match p_deviceLimit p with
           | None => inl InvalidDeviceLimit
           | Some limit =>
               if limit <? 1 then inl InvalidDeviceLimit
               else
                 let totalCost := (cost * inject_Z (p_count p))%Q in
                 match debit st (p_resellerId p) totalCost with
                 | None => inl InsufficientCredit
                 | Some debited =>
                     match createKeys (Z.to_nat (p_count p)) (p_game p)
                                      (p_keyString p) (keyStrings st) with
                     | inl e => inl e
                     | inr strings =>
                         inr (map (fun k => mkKey k (now + p_days p)) strings,
                              mkStore (balance debited)
                                      (keyStrings st ++ strings)%list)
                     end
                 end
           end
  end.

End Generator.

End KeyGenerator.

(** ** Vocabulary of the statements *)

(** The game enumeration of the data model, and the value under which the
    game select offers each game. *)
Inductive Game := PUBG_MOBILE | LIOS | FREE_FIRE.

Definition gameValue (g : Game) : string :=
  match g with
  | PUBG_MOBILE => "PUBG MOBILE"
  | LIOS => "LAST ISLAND OF SURVIVAL"
  | FREE_FIRE => "FREE FIRE"
  end.

(** The device limits a payload can carry when the field holds the value
    of an item of the device-limit select. *)
Definition selectableLimits : list (option Z) := map Js.parseInt deviceLimitOptions.

(** What is kept by every event: the two selects hold their initial value
    or the value of one of their items, and every generation request sent
    so far carries a game and a device limit taken from the items. *)
Definition selectsRespected (s : Page) : Prop :=
  In (f_game (form s)) ("" :: gameOptions) /\
  In (f_deviceLimit (form s)) deviceLimitOptions /\
  forall p, In (GenerateRequest p) (sent s) ->
            In (p_game p) gameOptions /\ In (p_deviceLimit p) selectableLimits.

(** The number of generation requests in a log of requests. *)
Definition generateRequests (log : list Request) : nat :=
  List.length (filter (fun r => match r with GenerateRequest _ => true | _ => false end) log).

(** The number of mutations the events have settled. *)
Definition settledEvents (events : list Event) : nat :=
  List.length (filter (fun e => match e with Settled => true | _ => false end) events).

(** Whether an event is a choice in the game select. *)
Definition isSelectGame (e : Event) : bool :=
  match e with SelectGame _ => true | _ => false end.

(** What every generation request of the page satisfies: a count of at
    least 1, days that have a tier, a key string that is absent or not
    empty, and a reseller id that is not 0. *)
Definition wellFormed (p : Payload) : Prop :=
  1 <= p_count p /\
  (exists c, tierCost (p_days p) = Some c) /\
  p_keyString p <> Some "" /\
  p_resellerId p <> 0.

(** ** Sample data *)

(** A server that knows reseller 7 and answers every generation request
    with two keys. *)
Definition sampleServer : Server :=
  mkServer
    (Responded true (inr (mkSession true (Some (mkUser (Some 7))))))
    (fun _ => Responded true
                (inr (mkBody None (Some [mkKey "FF-7Q2M9X" 30; mkKey "FF-K4T8ZB" 30])))).

(** A freshly loaded page of a reseller with the given credits and form. *)
Definition samplePage (available : Q) (f : FormState) : Page :=
  mkPage f [] (Some (mkProfile available)) None [] [] None [].

(** A generator whose [n]-th draw for a game is the game followed by [n]. *)
Definition sampleCandidate (g : string) (n : nat) : string :=
  g ++ "-" ++ Js.toString (Z.of_nat n).

Definition sampleStore : KeyGenerator.Store :=
  KeyGenerator.mkStore (fun _ => 10%Q) ["FREE FIRE-0"].

(** A form and its parsed values: two 30-day FREE FIRE keys for one device,
    without a custom key. *)
Definition sampleForm : FormState :=
  mkForm "FREE FIRE" "1" "30" (CountNumber 2) (Some "").

Definition sampleValues : GenerateKeyValues :=
  mkValues "FREE FIRE" "1" "30" 2 (Some "").

Definition thirtyDays : Tier := mkTier 30 3 "30 Days / 3 Credits".

(** A server whose session is not authenticated. *)
Definition anonymousServer : Server :=
  mkServer (Responded true (inr (mkSession false None)))
           (fun _ => Rejected "Failed to fetch").

(** A server that knows reseller 7 and refuses every generation. *)
Definition refusingServer : Server :=
  mkServer (Responded true (inr (mkSession true (Some (mkUser (Some 7))))))
           (fun _ => Responded false (inr (mkBody (Some "Insufficient credits") None))).

(** A server that cannot be reached. *)
Definition offlineServer : Server :=
  mkServer (Rejected "Failed to fetch") (fun _ => Rejected "Failed to fetch").

(** * Properties *)

(** ** The tier table *)

Lemma findTier_In (d : option Z) (t : Tier) :
  findTier d = Some t -> In t DAY_CREDIT_TIERS /\ d = Some (days t).
Proof.
  destruct d as [d|]; unfold findTier; [|discriminate].
  intros H. apply find_some in H. destruct H as [Hin Heq].
  apply Z.eqb_eq in Heq. split; [assumption | now rewrite Heq].
Qed.

Lemma findTier_days (t : Tier) :
  In t DAY_CREDIT_TIERS -> findTier (Some (days t)) = Some t.
Proof.
  simpl. intros [<-|[<-|[<-|[<-|[<-|[]]]]]]; reflexivity.
Qed.

Lemma tier_credits_nonzero (t : Tier) :
  In t DAY_CREDIT_TIERS -> Qeq_bool (credits t) 0 = false.
Proof.
  simpl. intros [<-|[<-|[<-|[<-|[<-|[]]]]]]; reflexivity.
Qed.


(** C1: the tier table is exactly 5 -> 0.5, 10 -> 1, 20 -> 2, 30 -> 3,
    60 -> 6: [tierCost] returns the listed cost at each of the five day
    values and has no tier at any other day value. *)
Theorem tier_table_exact (d : Z) :
  tierCost d =
    match d with
    | 5 => Some 0.5%Q
    | 10 => Some 1%Q
    | 20 => Some 2%Q
    | 30 => Some 3%Q
    | 60 => Some 6%Q
    | _ => None
    end.
Proof.
  unfold tierCost, findTier, DAY_CREDIT_TIERS; cbn [find days].
  destruct (5 =? d) eqn:E5; [apply Z.eqb_eq in E5; subst; reflexivity|].
  destruct (10 =? d) eqn:E10; [apply Z.eqb_eq in E10; subst; reflexivity|].
  destruct (20 =? d) eqn:E20; [apply Z.eqb_eq in E20; subst; reflexivity|].
  destruct (30 =? d) eqn:E30; [apply Z.eqb_eq in E30; subst; reflexivity|].
  destruct (60 =? d) eqn:E60; [apply Z.eqb_eq in E60; subst; reflexivity|].
  apply Z.eqb_neq in E5, E10, E20, E30, E60.
  destruct d as [|q|q]; try reflexivity.
  do 7 (destruct q as [q|q|]; try reflexivity; try congruence).
Qed.

Lemma tierCost_tier (d : Z) (c : Q) :
  tierCost d = Some c ->
  exists t, In t DAY_CREDIT_TIERS /\ days t = d /\ credits t = c /\ findTier (Some d) = Some t.
Proof.
  unfold tierCost. destruct (findTier (Some d)) as [t|] eqn:E; [|discriminate].
  intros [= <-]. destruct (findTier_In _ _ E) as [Hin [= ->]]. now exists t.
Qed.

Lemma absent_days_no_tier (x : string) :
  (forall d, Js.parseInt x = Some d -> tierCost d = None) ->
  findTier (Js.parseInt x) = None.
Proof.
  intros H. destruct (Js.parseInt x) as [d|]; [|reflexivity].
  specialize (H d eq_refl). unfold tierCost in H.
  destruct (findTier (Some d)); [discriminate | reflexivity].
Qed.

(** ** The cost pre-check *)

Lemma lt_true (x y : Q) : (x < y)%Q -> Js.lt x y = true.
Proof.
  intros H. unfold Js.lt. destruct (Qle_bool y x) eqn:E; [|reflexivity].
  apply Qle_bool_iff in E. exfalso. exact (Qlt_not_le _ _ H E).
Qed.

Lemma lt_false (x y : Q) : (y <= x)%Q -> Js.lt x y = false.
Proof.
  intros H. unfold Js.lt. apply Qle_bool_iff in H. now rewrite H.
Qed.

Lemma orZero_nonneg (x : option Q) :
  (forall q, x = Some q -> (0 <= q)%Q) -> (0 <= Js.orZero x)%Q.
Proof.
  intros H. destruct x as [q|]; simpl; [|apply Qle_refl].
  destruct (Qeq_bool q 0); [apply Qle_refl | now apply H].
Qed.

Lemma selectedDays_chosen (f : FormState) :
  f_dayTier f <> "" -> selectedDays f = Js.parseInt (f_dayTier f).
Proof.
  unfold selectedDays. destruct (f_dayTier f); [congruence | reflexivity].
Qed.

Lemma costPerKey_tier (f : FormState) (t : Tier) :
  In t DAY_CREDIT_TIERS -> selectedDays f = Some (days t) -> costPerKey f = credits t.
Proof.
  intros Hin Hsel. unfold costPerKey. rewrite Hsel, (findTier_days _ Hin). simpl.
  now rewrite (tier_credits_nonzero _ Hin).
Qed.




(** ** The mutation *)

Lemma mutation_invalid_tier (values : GenerateKeyValues) :
  findTier (Js.parseInt (dayTier values)) = None ->
  mutationFn values = Throw "Invalid day tier selected".
Proof.
  intros H. unfold mutationFn. now rewrite H.
Qed.

Ltac run_cases srv :=
  repeat match goal with
    | |- context [session srv] => destruct (session srv) as [?|? [?|?]]; simpl
    | |- context [sessionUserId ?d] => destruct (sessionUserId d); simpl
    | |- context [generate srv ?p] => destruct (generate srv p) as [?|[|] [?|?]]; simpl
    end.

(** Every generation request of a run carries the payload built from the
    values, for the tier the day field selects. *)
Lemma mutation_requests (srv : Server) (values : GenerateKeyValues) (p : Payload) :
  In (GenerateRequest p) (fst (run srv (mutationFn values))) ->
  exists tier userId,
    findTier (Js.parseInt (dayTier values)) = Some tier /\ p = payloadOf values tier userId.
Proof.
  unfold mutationFn.
  destruct (findTier (Js.parseInt (dayTier values))) as [tier|] eqn:E; simpl; [|tauto].
  run_cases srv; intros H;
    repeat (destruct H as [H|H]; [try discriminate|]); try contradiction;
    injection H as <-; eauto.
Qed.

(** A run returns data only from a generation response that was [ok], and
    the data is the body of that response. *)
Lemma mutation_success (srv : Server) (values : GenerateKeyValues) (data : GenerateBody) :
  snd (run srv (mutationFn values)) = inr data ->
  exists p,
    In (GenerateRequest p) (fst (run srv (mutationFn values))) /\
    generate srv p = Responded true (inr data).
Proof.
  unfold mutationFn.
  destruct (findTier (Js.parseInt (dayTier values))) as [tier|] eqn:E; simpl; [|discriminate].
  destruct (session srv) as [?|? [?|sess]]; simpl; try discriminate.
  destruct (sessionUserId sess) as [uid|]; simpl; [|discriminate].
  destruct (generate srv (payloadOf values tier uid))
    as [?|[|] [?|body]] eqn:G; simpl; try discriminate.
  intros [= <-]. eexists. split; [right; left; reflexivity | exact G].
Qed.

Lemma schema_fields (f : FormState) (values : GenerateKeyValues) :
  generateKeySchema f = inr values ->
  game values = f_game f /\ deviceLimit values = f_deviceLimit f /\
  dayTier values = f_dayTier f /\ f_keyCount f = CountNumber (keyCount values) /\
  customKey values = f_customKey f /\
  f_game f <> "" /\ f_dayTier f <> "" /\ 1 <= keyCount values.
Proof.
  unfold generateKeySchema.
  destruct (f_game f) as [|g0 g]; simpl; [destruct (f_keyCount f); discriminate|].
  destruct (f_deviceLimit f) as [|l0 l]; simpl; [destruct (f_keyCount f); discriminate|].
  destruct (f_dayTier f) as [|d0 d]; simpl; [destruct (f_keyCount f); discriminate|].
  destruct (f_keyCount f) as [n|]; simpl; [|discriminate].
  destruct (n <? 1) eqn:E; simpl; [discriminate|].
  apply Z.ltb_ge in E. intros [= <-]; simpl. repeat split; try discriminate. exact E.
Qed.

Lemma schema_count_below_one (f : FormState) (n : Z) :
  f_keyCount f = CountNumber n -> n < 1 ->
  exists issues,
    generateKeySchema f = inl issues /\
    In (KeyCountName, "Must generate at least 1 key") issues.
Proof.
  intros Hc Hn. unfold generateKeySchema. rewrite Hc.
  apply Z.ltb_lt in Hn. rewrite Hn.
  match goal with
  | |- context [match ?l with [] => _ | _ => _ end] =>
      assert (Hin : In (KeyCountName, "Must generate at least 1 key") l)
        by (repeat (apply in_or_app; right); now left);
      destruct l as [|i l']; [contradiction|]
  end.
  eexists; split; [reflexivity | exact Hin].
Qed.

Lemma handleSubmit_invalid (srv : Server) (s : Page) (issues : list FieldError) :
  generateKeySchema (form s) = inl issues ->
  handleSubmit srv s =
    mkPage (form s) issues (profile s) (pending s) (generatedKeys s) (toasts s)
           (clipboard s) (sent s).
Proof.
  intros H. unfold handleSubmit. now rewrite H.
Qed.

Lemma handleSubmit_invalid_tier (srv : Server) (s : Page) (values : GenerateKeyValues) :
  generateKeySchema (form s) = inr values ->
  findTier (Js.parseInt (dayTier values)) = None ->
  handleSubmit srv s =
    mkPage (form s) [] (profile s) (Some (inl "Invalid day tier selected"))
           (generatedKeys s) (toasts s) (clipboard s) (sent s).
Proof.
  intros Hv Ht. unfold handleSubmit. rewrite Hv, (mutation_invalid_tier _ Ht). simpl.
  now rewrite app_nil_r.
Qed.

(** C4: a submission whose key count is below 1, or whose day value has no
    tier, is rejected without any request: the schema reports the key
    count, and the mutation throws the invalid-tier error before it issues
    anything. *)
Theorem invalid_request_rejected_before_any_call
  (s : Page) (srv : Server)
  (Hbad : (exists n, f_keyCount (form s) = CountNumber n /\ n < 1) \/
          (forall d, Js.parseInt (f_dayTier (form s)) = Some d -> tierCost d = None)) :
  sent (handleSubmit srv s) = sent s /\
  generatedKeys (handleSubmit srv s) = generatedKeys s /\
  (forall generateRandomKey, sent (step generateRandomKey s (ClickSubmit srv)) = sent s) /\
  ((exists n, f_keyCount (form s) = CountNumber n /\ n < 1) ->
   exists issues,
     generateKeySchema (form s) = inl issues /\
     In (KeyCountName, "Must generate at least 1 key") issues /\
     formErrors (handleSubmit srv s) = issues /\
     pending (handleSubmit srv s) = pending s) /\
  ((forall d, Js.parseInt (f_dayTier (form s)) = Some d -> tierCost d = None) ->
   forall values,
     generateKeySchema (form s) = inr values ->
     mutationFn values = Throw "Invalid day tier selected" /\
     run srv (mutationFn values) = ([], inl "Invalid day tier selected") /\
     pending (handleSubmit srv s) = Some (inl "Invalid day tier selected")).
Proof.
  assert (Hcount : (exists n, f_keyCount (form s) = CountNumber n /\ n < 1) ->
                   exists issues,
                     generateKeySchema (form s) = inl issues /\
                     In (KeyCountName, "Must generate at least 1 key") issues /\
                     handleSubmit srv s =
                       mkPage (form s) issues (profile s) (pending s) (generatedKeys s)
                              (toasts s) (clipboard s) (sent s)).
  { intros (n & Hc & Hn).
    destruct (schema_count_below_one _ _ Hc Hn) as (issues & Hs & Hin).
    exists issues. auto using handleSubmit_invalid. }
  assert (Htier : (forall d, Js.parseInt (f_dayTier (form s)) = Some d -> tierCost d = None) ->
                  forall values,
                    generateKeySchema (form s) = inr values ->
                    mutationFn values = Throw "Invalid day tier selected" /\
                    handleSubmit srv s =
                      mkPage (form s) [] (profile s) (Some (inl "Invalid day tier selected"))
                             (generatedKeys s) (toasts s) (clipboard s) (sent s)).
  { intros Habs values Hv.
    assert (Hnone : findTier (Js.parseInt (dayTier values)) = None).
    { destruct (schema_fields _ _ Hv) as (_ & _ & -> & _).
      now apply absent_days_no_tier. }
    split; [now apply mutation_invalid_tier | now apply (handleSubmit_invalid_tier srv s values)]. }
  assert (Hsame : sent (handleSubmit srv s) = sent s /\
                  generatedKeys (handleSubmit srv s) = generatedKeys s).
  { destruct (generateKeySchema (form s)) as [issues|values] eqn:Hs.
    - rewrite (handleSubmit_invalid _ _ _ Hs). now split.
    - destruct Hbad as [Hc|Habs].
      + destruct (Hcount Hc) as (issues & Hcontra & _). discriminate.
      + destruct (Htier Habs values eq_refl) as [_ ->]. now split. }
  destruct Hsame as [Hsent Hkeys].
  split; [exact Hsent|]. split; [exact Hkeys|]. split; [|split].
  - intros gen. unfold step.
    destruct (submitDisabled (ResellerGenerate s)); [reflexivity | exact Hsent].
  - intros Hc. destruct (Hcount Hc) as (issues & Hs & Hin & ->). exists issues. auto.
  - intros Habs values Hv. destruct (Htier Habs values Hv) as [Hm ->].
    rewrite Hm. auto.
Qed.

(** C10: a non-empty day field whose days have no tier makes the computed
    total 0, so (credits being non-negative) the pre-check does not disable
    submission; the mutation throws at its tier lookup and nothing is sent.
    Only the empty day field is read as the 30-day tier. *)
Theorem unknown_day_tier_costs_nothing
  (s : Page)
  (Hchosen : f_dayTier (form s) <> "")
  (Habsent : forall d, Js.parseInt (f_dayTier (form s)) = Some d -> tierCost d = None)
  (Hcredits : forall p, profile s = Some p -> (0 <= profileCredits p)%Q) :
  selectedDays (form s) = Js.parseInt (f_dayTier (form s)) /\
  totalCredits (form s) = 0%Q /\
  insufficient s = false /\
  submitDisabled (ResellerGenerate s) = isPending s /\
  (forall values,
     generateKeySchema (form s) = inr values ->
     mutationFn values = Throw "Invalid day tier selected") /\
  (forall srv, sent (handleSubmit srv s) = sent s) /\
  (forall f, f_dayTier f = "" -> selectedDays f = Some 30 /\ tierCost 30 = Some (costPerKey f)).
Proof.
  assert (Hsel := selectedDays_chosen _ Hchosen).
  assert (Hnone := absent_days_no_tier _ Habsent).
  assert (Htotal : totalCredits (form s) = 0%Q).
  { unfold totalCredits, costPerKey. rewrite Hsel, Hnone. simpl.
    unfold Qmult; simpl. reflexivity. }
  assert (Hins : insufficient s = false).
  { unfold insufficient. rewrite Htotal. apply lt_false. unfold availableCredits.
    apply orZero_nonneg. intros q Hq.
    destruct (profile s) as [p|]; [|discriminate].
    injection Hq as <-. now apply Hcredits. }
  split; [exact Hsel|]. split; [exact Htotal|]. split; [exact Hins|].
  split; [simpl; rewrite Hins; apply orb_false_r|].
  split; [|split].
  - intros values Hv. apply mutation_invalid_tier.
    destruct (schema_fields _ _ Hv) as (_ & _ & -> & _). exact Hnone.
  - intros srv.
    destruct (generateKeySchema (form s)) as [issues|values] eqn:Hs.
    + now rewrite (handleSubmit_invalid _ _ _ Hs).
    + rewrite (handleSubmit_invalid_tier srv s values Hs); [reflexivity|].
      destruct (schema_fields _ _ Hs) as (_ & _ & -> & _). exact Hnone.
  - intros f Hf. unfold costPerKey, selectedDays. rewrite Hf. split; reflexivity.
Qed.

(** ** What the selects allow to be sent *)

Lemma choose_In (options : list string) (i : nat) (current : string) (allowed : list string) :
  incl options allowed -> In current allowed -> In (choose options i current) allowed.
Proof.
  intros Hincl Hcur. unfold choose.
  destruct (nth_in_or_default i options current) as [H | ->]; auto.
Qed.

Lemma handleSubmit_respects (srv : Server) (s : Page) :
  selectsRespected s -> selectsRespected (handleSubmit srv s).
Proof.
  intros (Hg & Hd & Hsent). unfold handleSubmit.
  destruct (generateKeySchema (form s)) as [issues|values] eqn:Hs.
  - repeat split; simpl; auto; now apply Hsent.
  - destruct (run srv (mutationFn values)) as [trace outcome] eqn:Hrun.
    split; [exact Hg|]. split; [exact Hd|]. simpl. intros p Hp.
    apply in_app_or in Hp. destruct Hp as [Hp|Hp]; [now apply Hsent|].
    assert (Hp' : In (GenerateRequest p) (fst (run srv (mutationFn values))))
      by now rewrite Hrun.
    destruct (mutation_requests _ _ _ Hp') as (tier & uid & _ & ->).
    destruct (schema_fields _ _ Hs) as (Hgame & Hlimit & _ & _ & _ & Hne & _).
    unfold payloadOf; cbn [p_game p_deviceLimit]. rewrite Hgame, Hlimit. split.
    + destruct Hg as [Hg|Hg]; [congruence | exact Hg].
    + exact (in_map Js.parseInt _ _ Hd).
Qed.

Ltac unchanged_selects :=
  unfold selectsRespected, setForm, addToast, setPending, copyToClipboard, onError;
  cbn [form sent f_game f_deviceLimit];
  split; [|split]; assumption.

Lemma step_respects (generateRandomKey : string -> string) (s : Page) (e : Event) :
  selectsRespected s -> selectsRespected (step generateRandomKey s e).
Proof.
  intros H. pose proof H as (Hg & Hd & Hsent).
  destruct e; unfold step; try unchanged_selects.
  - (* SelectGame *)
    unfold selectsRespected, setForm; cbn [form sent f_game f_deviceLimit].
    split; [|split; assumption].
    apply choose_In; [apply incl_tl, incl_refl | exact Hg].
  - (* SelectDeviceLimit *)
    unfold selectsRespected, setForm; cbn [form sent f_game f_deviceLimit].
    split; [exact Hg | split; [|exact Hsent]].
    apply choose_In; [apply incl_refl | exact Hd].
  - (* ClickRandom *)
    unfold handleGenerateRandomKey. clear Hg Hd Hsent.
    destruct (f_game (form s)) eqn:E; destruct H as (Hg & Hd & Hsent);
      [unchanged_selects|].
    unfold selectsRespected, setForm; cbn [form sent f_game f_deviceLimit].
    rewrite E in Hg. split; [|split]; assumption.
  - (* ClickSubmit *)
    destruct (submitDisabled (ResellerGenerate s));
      [exact H | now apply handleSubmit_respects].
  - (* Settled *)
    destruct (pending s) as [[error|data]|]; [unchanged_selects| |exact H].
    unfold onSuccess. destruct (keys data) as [[|first more]|]; unchanged_selects.
  - (* ClickCopy *)
    destruct (nth_error (generatedKeys s) item); [unchanged_selects | exact H].
Qed.

Lemma fold_respects (generateRandomKey : string -> string) (events : list Event) (s : Page) :
  selectsRespected s -> selectsRespected (fold_left (step generateRandomKey) events s).
Proof.
  revert s. induction events as [|e events IH]; intros s H; simpl; [exact H|].
  apply IH. now apply step_respects.
Qed.

Lemma after_respects (generateRandomKey : string -> string) (events : list Event) :
  selectsRespected (after generateRandomKey events).
Proof.
  apply fold_respects. repeat split; simpl; auto; contradiction.
Qed.

(** C6: whatever the reseller does on the page, the game of every
    generation request sent is one of the three games of the enumeration. *)
Theorem submitted_game_in_enumeration
  (generateRandomKey : string -> string) (events : list Event) (p : Payload)
  (Hsent : In (GenerateRequest p) (sent (after generateRandomKey events))) :
  exists g : Game, p_game p = gameValue g.
Proof.
  destruct (after_respects generateRandomKey events) as (_ & _ & H).
  destruct (H p Hsent) as [[E|[E|[E|[]]]] _].
  - now exists PUBG_MOBILE.
  - now exists LIOS.
  - now exists FREE_FIRE.
Qed.

(** C8: whatever the reseller does on the page, the device limit of every
    generation request sent is 1, 2 or 100, hence at least 1. *)
Theorem submitted_device_limit_selectable
  (generateRandomKey : string -> string) (events : list Event) (p : Payload)
  (Hsent : In (GenerateRequest p) (sent (after generateRandomKey events))) :
  (p_deviceLimit p = Some 1 \/ p_deviceLimit p = Some 2 \/ p_deviceLimit p = Some 100) /\
  exists limit, p_deviceLimit p = Some limit /\ 1 <= limit.
Proof.
  destruct (after_respects generateRandomKey events) as (_ & _ & H).
  destruct (H p Hsent) as [_ [E|[E|[E|[]]]]]; rewrite <- E; simpl.
  - split; [auto | exists 1; split; [reflexivity | lia]].
  - split; [auto | exists 2; split; [reflexivity | lia]].
  - split; [auto | exists 100; split; [reflexivity | lia]].
Qed.

(** ** The generated keys *)

Lemma onSuccess_keys (data : GenerateBody) (ks : list KeyRecord) (s : Page) :
  keys data = Some ks -> ks <> [] ->
  onSuccess data s =
    mkPage (form s) (formErrors s) (profile s) (pending s) (map keyString ks)
           (toasts s ++ [mkToast "Success"
              ("Generated " ++ Js.toString (Z.of_nat (List.length ks)) ++ " key(s) successfully")
              DefaultToast])%list
           (clipboard s) (sent s).
Proof.
  intros Hk Hne. unfold onSuccess. rewrite Hk.
  destruct ks as [|first more]; [congruence | reflexivity].
Qed.

(** C7: when a submission is answered by a successful response whose keys
    list is not empty, the page then shows the key string of each returned
    record, in the order of the response, and its success message gives
    their number. *)
Theorem generated_keys_displayed
  (generateRandomKey : string -> string) (s : Page) (srv : Server)
  (values : GenerateKeyValues) (data : GenerateBody) (ks : list KeyRecord)
  (Henabled : submitDisabled (ResellerGenerate s) = false)
  (Hvalid : generateKeySchema (form s) = inr values)
  (Hdata : snd (run srv (mutationFn values)) = inr data)
  (Hkeys : keys data = Some ks)
  (Hne : ks <> []) :
  let s' := step generateRandomKey (step generateRandomKey s (ClickSubmit srv)) Settled in
  (exists p, In (GenerateRequest p) (sent s') /\ generate srv p = Responded true (inr data)) /\
  generatedKeys s' = map keyString ks /\
  keysPanel (ResellerGenerate s') = Some (map keyString ks) /\
  toasts s' =
    (toasts s ++ [mkToast "Success"
       ("Generated " ++ Js.toString (Z.of_nat (List.length ks)) ++ " key(s) successfully")
       DefaultToast])%list.
Proof.
  cbv zeta.
  destruct (mutation_success _ _ _ Hdata) as (p & Hp & Hresp).
  destruct (run srv (mutationFn values)) as [trace outcome] eqn:Hrun.
  simpl in Hdata, Hp. subst outcome.
  assert (Hsubmit : step generateRandomKey s (ClickSubmit srv) =
                    mkPage (form s) [] (profile s) (Some (inr data)) (generatedKeys s)
                           (toasts s) (clipboard s) (sent s ++ trace)%list).
  { unfold step. rewrite Henabled. unfold handleSubmit. now rewrite Hvalid, Hrun. }
  rewrite Hsubmit. unfold step. cbn [pending]. rewrite (onSuccess_keys _ _ _ Hkeys Hne).
  cbn [form formErrors profile pending generatedKeys toasts clipboard sent setPending].
  split; [exists p; split; [apply in_or_app; now right | exact Hresp]|].
  split; [reflexivity|]. split; [|reflexivity].
  unfold ResellerGenerate; cbn [keysPanel generatedKeys].
  destruct ks as [|first more]; [congruence | reflexivity].
Qed.

(** ** The custom key *)

Section GeneratorFacts.

Variable candidate : string -> nat -> string.
Variable attempts : nat.

Lemma inUse_In (k : string) (used : list string) :
  KeyGenerator.inUse k used = true <-> In k used.
Proof.
  unfold KeyGenerator.inUse. rewrite existsb_exists. split.
  - intros (x & Hin & Heq). apply String.eqb_eq in Heq. now subst.
  - intros Hin. exists k. split; [exact Hin | apply String.eqb_refl].
Qed.

Lemma fresh_sound (left : nat) (g : string) (used : list string) (draw : nat)
      (k : string) (draw' : nat) :
  KeyGenerator.fresh candidate left g used draw = Some (k, draw') ->
  ~ In k used /\ exists n, k = candidate g n.
Proof.
  revert draw. induction left as [|left IH]; intros draw; simpl; [discriminate|].
  destruct (KeyGenerator.inUse (candidate g draw) used) eqn:E.
  - apply IH.
  - intros [= <- <-]. split; [|now exists draw].
    intros Hin. apply inUse_In in Hin. congruence.
Qed.

Lemma freshKeys_sound (n : nat) (g : string) (used : list string) (draw : nat)
      (ks : list string) :
  KeyGenerator.freshKeys candidate attempts n g used draw = Some ks ->
  List.length ks = n /\ NoDup ks /\
  Forall (fun k => ~ In k used /\ exists i, k = candidate g i) ks.
Proof.
  revert used draw ks. induction n as [|n IH]; intros used draw ks; simpl.
  - intros [= <-]. repeat split; constructor.
  - destruct (KeyGenerator.fresh candidate attempts g used draw) as [[k draw']|] eqn:F;
      [|discriminate].
    destruct (KeyGenerator.freshKeys candidate attempts n g (k :: used) draw')
      as [rest|] eqn:R; [|discriminate].
    intros [= <-]. destruct (IH _ _ _ R) as (Hlen & Hnd & Hall).
    destruct (fresh_sound _ _ _ _ _ _ F) as [Hk Hdrawn].
    split; [simpl; now rewrite Hlen|]. split.
    + constructor; [|exact Hnd]. intros Hin.
      rewrite Forall_forall in Hall. destruct (Hall _ Hin) as [Hnot _].
      apply Hnot. now left.
    + constructor; [now split|].
      eapply Forall_impl; [|exact Hall]. intros x [Hx Hd]. split; [|exact Hd].
      intros Hin. apply Hx. now right.
Qed.

(** The generator does produce a batch when its draws are pairwise distinct
    and none of them is in use: the [n] strings drawn in order. *)
Lemma freshKeys_complete (n : nat) (g : string) (used : list string) (draw : nat) :
  (0 < attempts)%nat ->
  (forall i j, candidate g i = candidate g j -> i = j) ->
  (forall i, (draw <= i)%nat -> ~ In (candidate g i) used) ->
  KeyGenerator.freshKeys candidate attempts n g used draw
  = Some (map (candidate g) (seq draw n)).
Proof.
  intros Hfuel Hinj. revert used draw.
  induction n as [|n IH]; intros used draw Hfree; simpl; [reflexivity|].
  destruct attempts as [|more]; [lia|]. simpl.
  destruct (KeyGenerator.inUse (candidate g draw) used) eqn:E.
  - apply inUse_In in E. exfalso. exact (Hfree draw (le_n _) E).
  - rewrite IH; [reflexivity|].
    intros i Hi [Heq|Hin].
    + apply Hinj in Heq. lia.
    + apply (Hfree i); [lia | exact Hin].
Qed.

Lemma createKeys_custom (count : nat) (g c : string) (used ks : list string) :
  (0 < count)%nat ->
  KeyGenerator.createKeys candidate attempts count g (Some c) used = inr ks ->
  exists rest,
    ks = c :: rest /\ S (List.length rest) = count /\ ~ In c used /\ ~ In c rest /\
    NoDup rest /\
    Forall (fun k => ~ In k used /\ exists i, k = candidate g i) rest.
Proof.
  intros Hpos. unfold KeyGenerator.createKeys.
  destruct count as [|others]; [lia|].
  destruct (KeyGenerator.inUse c used) eqn:E; [discriminate|].
  destruct (KeyGenerator.freshKeys candidate attempts others g (c :: used) 0)
    as [rest|] eqn:R; [|discriminate].
  intros [= <-]. destruct (freshKeys_sound _ _ _ _ _ R) as (Hlen & Hnd & Hall).
  exists rest. split; [reflexivity|]. split; [now rewrite Hlen|].
  split; [intros Hin; apply inUse_In in Hin; congruence|].
  rewrite Forall_forall in Hall. split; [|split; [exact Hnd|]].
  - intros Hin. destruct (Hall _ Hin) as [Hnot _]. apply Hnot. now left.
  - apply Forall_forall. intros x Hx. destruct (Hall _ Hx) as [Hnot Hd].
    split; [|exact Hd]. intros Hin. apply Hnot. now right.
Qed.

Lemma createKeys_generated (count : nat) (g : string) (used ks : list string) :
  KeyGenerator.createKeys candidate attempts count g None used = inr ks ->
  List.length ks = count /\ NoDup ks /\
  Forall (fun k => ~ In k used /\ exists i, k = candidate g i) ks.
Proof.
  unfold KeyGenerator.createKeys.
  destruct (KeyGenerator.freshKeys candidate attempts count g used 0) as [all|] eqn:R;
    [|discriminate].
  intros [= <-]. exact (freshKeys_sound _ _ _ _ _ R).
Qed.

Lemma generate_created (now : Z) (st st' : KeyGenerator.Store) (p : Payload)
      (records : list KeyRecord) :
  KeyGenerator.generate candidate attempts now st p = inr (records, st') ->
  1 <= p_count p /\
  KeyGenerator.createKeys candidate attempts (Z.to_nat (p_count p)) (p_game p)
                          (p_keyString p) (KeyGenerator.keyStrings st)
  = inr (map keyString records).
Proof.
  unfold KeyGenerator.generate.
  destruct (tierCost (p_days p)) as [cost|]; [|discriminate].
  destruct (p_count p <? 1) eqn:Hc; [discriminate|]. apply Z.ltb_ge in Hc.
  destruct (p_deviceLimit p) as [limit|]; [|discriminate].
  destruct (limit <? 1); [discriminate|].
  destruct (KeyGenerator.debit st (p_resellerId p) _) as [debited|]; [|discriminate].
  destruct (KeyGenerator.createKeys candidate attempts (Z.to_nat (p_count p)) (p_game p)
              (p_keyString p) (KeyGenerator.keyStrings st)) as [e|strings];
    [discriminate|].
  intros [= <- _]. split; [exact Hc|].
  rewrite map_map. simpl. now rewrite map_id.
Qed.

(** A batch is created whenever the custom key, if any, is not in use and
    the draws are pairwise distinct, not in use and different from it. *)
Lemma createKeys_succeeds (count : nat) (g : string) (custom : option string)
      (used : list string) :
  (0 < attempts)%nat ->
  (forall i j, candidate g i = candidate g j -> i = j) ->
  (forall i, ~ In (candidate g i) used) ->
  (forall c, custom = Some c -> ~ In c used /\ forall i, candidate g i <> c) ->
  exists ks, KeyGenerator.createKeys candidate attempts count g custom used = inr ks /\
             List.length ks = count.
Proof.
  intros Hfuel Hinj Hfree Hcustom. unfold KeyGenerator.createKeys.
  destruct custom as [c|]; [destruct count as [|others]|].
  - rewrite (freshKeys_complete 0 g used 0 Hfuel Hinj); [|intros i _; apply Hfree].
    now exists [].
  - destruct (Hcustom c eq_refl) as [Hc Hother].
    destruct (KeyGenerator.inUse c used) eqn:E; [apply inUse_In in E; contradiction|].
    rewrite (freshKeys_complete others g (c :: used) 0 Hfuel Hinj).
    + eexists. split; [reflexivity|]. simpl. now rewrite length_map, length_seq.
    + intros i _ [Heq|Hin]; [exact (Hother i (eq_sym Heq)) | exact (Hfree i Hin)].
  - rewrite (freshKeys_complete count g used 0 Hfuel Hinj); [|intros i _; apply Hfree].
    eexists. split; [reflexivity|]. now rewrite length_map, length_seq.
Qed.

End GeneratorFacts.

Lemma orUndefined_custom (c : string) : c <> "" -> Js.orUndefined (Some c) = Some c.
Proof.
  destruct c; [congruence | reflexivity].
Qed.

(** C5: for a batch of more than one key with a custom key supplied, the
    custom string is the first key of the batch and no other; the remaining
    keys are generated strings, distinct from one another and from every
    string in use. *)
Theorem custom_key_only_first
  (candidate : string -> nat -> string) (attempts : nat) (now : Z)
  (srv : Server) (values : GenerateKeyValues) (p : Payload) (c : string)
  (st st' : KeyGenerator.Store) (records : list KeyRecord)
  (Hcustom : customKey values = Some c)
  (Hc : c <> "")
  (Hcount : 1 < keyCount values)
  (Hsent : In (GenerateRequest p) (fst (run srv (mutationFn values))))
  (Hgen : KeyGenerator.generate candidate attempts now st p = inr (records, st')) :
  p_keyString p = Some c /\
  p_count p = keyCount values /\
  exists rest,
    map keyString records = c :: rest /\
    Z.of_nat (List.length records) = keyCount values /\
    rest <> [] /\
    ~ In c rest /\
    NoDup rest /\
    Forall (fun k => (exists i, k = candidate (p_game p) i) /\
                     ~ In k (KeyGenerator.keyStrings st)) rest.
Proof.
  destruct (mutation_requests _ _ _ Hsent) as (tier & uid & _ & ->).
  destruct (generate_created _ _ _ _ _ _ _ Hgen) as [_ Hcreated].
  unfold payloadOf in *. cbn [p_keyString p_count p_game] in *.
  rewrite Hcustom, (orUndefined_custom _ Hc) in *.
  split; [reflexivity|]. split; [reflexivity|].
  apply createKeys_custom in Hcreated; [|lia].
  destruct Hcreated as (rest & Hks & Hlen & _ & Hnot & Hnd & Hall).
  exists rest. split; [exact Hks|]. split.
  - rewrite <- (length_map keyString), Hks. simpl List.length. lia.
  - split; [destruct rest; [simpl in Hlen; lia | discriminate]|].
    split; [exact Hnot|]. split; [exact Hnd|].
    eapply Forall_impl; [|exact Hall]. intros k [Hk Hd]. now split.
Qed.

(** C9: an empty (or missing) custom key leaves [keyString] out of the
    payload, and every key of the batch is then a generated one; a custom
    key that is not empty is forwarded as it is. *)
Theorem custom_key_forwarded_or_omitted
  (srv : Server) (values : GenerateKeyValues) (p : Payload)
  (Hsent : In (GenerateRequest p) (fst (run srv (mutationFn values)))) :
  (customKey values = Some "" \/ customKey values = None ->
   p_keyString p = None /\
   forall candidate attempts now st st' records,
     KeyGenerator.generate candidate attempts now st p = inr (records, st') ->
     Forall (fun k => exists i, k = candidate (p_game p) i) (map keyString records)) /\
  (forall c, customKey values = Some c -> c <> "" -> p_keyString p = Some c).
Proof.
  destruct (mutation_requests _ _ _ Hsent) as (tier & uid & _ & ->).
  unfold payloadOf; cbn [p_keyString p_game]. split.
  - intros Hempty.
    assert (Hnone : Js.orUndefined (customKey values) = None)
      by (destruct Hempty as [-> | ->]; reflexivity).
    split; [exact Hnone|].
    intros candidate attempts now st st' records Hgen.
    apply generate_created in Hgen. destruct Hgen as [_ Hcreated].
    cbn [p_keyString p_game p_count] in Hcreated. rewrite Hnone in Hcreated.
    apply createKeys_generated in Hcreated. destruct Hcreated as (_ & _ & Hall).
    eapply Forall_impl; [|exact Hall]. now intros k [_ Hd].
  - intros c -> Hc. now apply orUndefined_custom.
Qed.

(** ** A refusal of the server is what the page reports *)

(** A generation response that is not [ok] makes the mutation throw the
    message of its body. *)
Lemma refusal_outcome (srv : Server) (values : GenerateKeyValues) (tier : Tier)
      (sessionOk : bool) (sessionData : SessionData) (userId : Z) (body : GenerateBody) :
  findTier (Js.parseInt (dayTier values)) = Some tier ->
  session srv = Responded sessionOk (inr sessionData) ->
  sessionUserId sessionData = Some userId ->
  generate srv (payloadOf values tier userId) = Responded false (inr body) ->
  run srv (mutationFn values)
  = ([SessionRequest; GenerateRequest (payloadOf values tier userId)],
     inl (orMessage (Some (orMessage (message body) "Failed to generate key"))
                    "Failed to generate key")).
Proof.
  intros Ht Hs Hu Hg. unfold mutationFn. rewrite Ht. simpl.
  rewrite Hs. simpl. rewrite Hu. simpl. rewrite Hg. reflexivity.
Qed.


(** ** The pre-check and the server *)




(** ** Instances *)


(** A key count of 0 is rejected and nothing is sent. *)
Lemma zero_keys_example :
  sent (handleSubmit sampleServer
          (samplePage 10 (mkForm "FREE FIRE" "1" "30" (CountNumber 0) (Some "")))) = [].
Proof.
  refine (proj1 (invalid_request_rejected_before_any_call
    (samplePage 10 (mkForm "FREE FIRE" "1" "30" (CountNumber 0) (Some "")))
    sampleServer _)).
  left. exists 0. split; [reflexivity | lia].
Defined.

(** A day field of 7 days costs nothing and is refused by the mutation. *)
Lemma seven_days_example :
  totalCredits (mkForm "FREE FIRE" "1" "7" (CountNumber 2) (Some "")) = 0%Q /\
  insufficient (samplePage 5 (mkForm "FREE FIRE" "1" "7" (CountNumber 2) (Some ""))) = false.
Proof.
  assert (H := unknown_day_tier_costs_nothing
    (samplePage 5 (mkForm "FREE FIRE" "1" "7" (CountNumber 2) (Some "")))).
  simpl in H.
  refine ((fun H' => conj (proj1 (proj2 H')) (proj1 (proj2 (proj2 H')))) (H _ _ _)).
  - discriminate.
  - intros d [= <-]. reflexivity.
  - intros p [= <-]. discriminate.
Defined.

(** Selecting FREE FIRE and 100 devices, then submitting, sends a request
    for a game of the enumeration. *)
Lemma free_fire_example :
  exists g : Game, "FREE FIRE" = gameValue g.
Proof.
  refine (submitted_game_in_enumeration (fun g => g)
    [ProfileFetched (Some (mkProfile 10)); SelectGame 2; SelectDeviceLimit 2;
     ClickSubmit sampleServer]
    (mkPayload "FREE FIRE" (Some 100) 30 None 1 7) _).
  vm_compute. right. left. reflexivity.
Defined.

(** The same submission carries a device limit of 100. *)
Lemma hundred_devices_example :
  (Some 100 = Some 1 \/ Some 100 = Some 2 \/ Some 100 = Some 100) /\
  exists limit, Some 100 = Some limit /\ 1 <= limit.
Proof.
  refine (submitted_device_limit_selectable (fun g => g)
    [ProfileFetched (Some (mkProfile 10)); SelectGame 2; SelectDeviceLimit 2;
     ClickSubmit sampleServer]
    (mkPayload "FREE FIRE" (Some 100) 30 None 1 7) _).
  vm_compute. right. left. reflexivity.
Defined.

(** Two keys returned by the server are the two keys shown. *)
Lemma two_keys_example :
  keysPanel (ResellerGenerate
    (step (fun g => g)
       (step (fun g => g)
          (samplePage 10 (mkForm "FREE FIRE" "1" "30" (CountNumber 2) (Some "")))
          (ClickSubmit sampleServer))
       Settled))
  = Some ["FF-7Q2M9X"; "FF-K4T8ZB"].
Proof.
  refine (proj1 (proj2 (proj2 (generated_keys_displayed (fun g => g)
    (samplePage 10 (mkForm "FREE FIRE" "1" "30" (CountNumber 2) (Some "")))
    sampleServer
    (mkValues "FREE FIRE" "1" "30" 2 (Some ""))
    (mkBody None (Some [mkKey "FF-7Q2M9X" 30; mkKey "FF-K4T8ZB" 30]))
    [mkKey "FF-7Q2M9X" 30; mkKey "FF-K4T8ZB" 30]
    eq_refl eq_refl eq_refl eq_refl _)))).
  discriminate.
Defined.

(** Three keys with the custom key MYKEY: MYKEY comes first, two generated
    strings follow. *)
Lemma custom_batch_example :
  exists records rest,
    map keyString records = "MYKEY" :: rest /\ List.length rest = 2%nat /\ ~ In "MYKEY" rest.
Proof.
  destruct (custom_key_only_first sampleCandidate 3 0 sampleServer
    (mkValues "FREE FIRE" "1" "30" 3 (Some "MYKEY"))
    (mkPayload "FREE FIRE" (Some 1) 30 (Some "MYKEY") 3 7)
    "MYKEY" sampleStore
    (KeyGenerator.mkStore
       (fun r => if r =? 7 then (10 - 3 * inject_Z 3)%Q else 10%Q)
       ["FREE FIRE-0"; "MYKEY"; "FREE FIRE-1"; "FREE FIRE-2"])
    [mkKey "MYKEY" 30; mkKey "FREE FIRE-1" 30; mkKey "FREE FIRE-2" 30])
    as (_ & _ & rest & Hks & Hlen & _ & Hnot & _).
  - reflexivity.
  - discriminate.
  - simpl. lia.
  - vm_compute. right. left. reflexivity.
  - reflexivity.
  - exists [mkKey "MYKEY" 30; mkKey "FREE FIRE-1" 30; mkKey "FREE FIRE-2" 30], rest.
    split; [exact Hks|]. split; [|exact Hnot].
    simpl in Hks. injection Hks as <-. reflexivity.
Defined.

(** An empty custom key is left out of the payload. *)
Lemma empty_custom_key_example :
  p_keyString (mkPayload "FREE FIRE" (Some 1) 30 None 2 7) = None.
Proof.
  refine (proj1 (proj1 (custom_key_forwarded_or_omitted sampleServer
    (mkValues "FREE FIRE" "1" "30" 2 (Some ""))
    (mkPayload "FREE FIRE" (Some 1) 30 None 2 7) _) _)).
  - vm_compute. right. left. reflexivity.
  - left. reflexivity.
Defined.

(** * Further properties of the page *)

(** ** Numbers in and out of strings *)

Lemma digits_decimal (c : ascii) (d : Z) (s : string) (acc : option Z) :
  Js.digitValue c = Some d -> d < 10 ->
  Js.digits 10 (String c s) acc
  = Js.digits 10 s (Some (10 * match acc with Some a => a | None => 0 end + d)).
Proof.
  intros Hc Hd. cbn [Js.digits]. rewrite Hc. apply Z.ltb_lt in Hd. now rewrite Hd.
Qed.

Ltac digit_value :=
  try match goal with
    | |- context [Z.of_nat (nat_of_ascii ?c) - 48] =>
        let v := eval vm_compute in (Z.of_nat (nat_of_ascii c) - 48) in
        change (Z.of_nat (nat_of_ascii c) - 48) with v
    end.

Lemma digits_of_uint_acc (u : Decimal.uint) (acc : positive) :
  Js.digits 10 (NilEmpty.string_of_uint u) (Some (Z.pos acc))
  = Some (Z.pos (Pos.of_uint_acc u acc)).
Proof.
  revert acc. induction u; intros acc; cbn [NilEmpty.string_of_uint Pos.of_uint_acc];
    [reflexivity | ..];
    (erewrite digits_decimal; [|reflexivity|reflexivity]);
    rewrite <- IHu; do 2 f_equal; digit_value; lia.
Qed.

Lemma digits_of_uint (u : Decimal.uint) :
  Js.digits 10 (NilEmpty.string_of_uint u) (Some 0) = Some (Z.of_N (Pos.of_uint u)).
Proof.
  induction u; cbn [NilEmpty.string_of_uint Pos.of_uint]; [reflexivity | ..];
    (erewrite digits_decimal; [|reflexivity|reflexivity]);
    digit_value; [exact IHu | apply digits_of_uint_acc ..].
Qed.

Lemma digits_start (u : Decimal.uint) :
  u <> Decimal.Nil ->
  Js.digits 10 (NilEmpty.string_of_uint u) None
  = Js.digits 10 (NilEmpty.string_of_uint u) (Some 0).
Proof.
  destruct u; [congruence | ..]; intros _; cbn [NilEmpty.string_of_uint];
    (erewrite !digits_decimal; [reflexivity | reflexivity ..]).
Qed.

(** On a string of decimal digits, with or without a minus sign, [parseInt]
    skips nothing, finds no [0x] prefix and reads the digits in radix 10. *)
Lemma parseInt_unsigned (u : Decimal.uint) :
  Js.parseInt (NilEmpty.string_of_uint u)
  = option_map (Z.mul 1) (Js.digits 10 (NilEmpty.string_of_uint u) None) /\
  Js.parseInt (String "-" (NilEmpty.string_of_uint u))
  = option_map (Z.mul (-1)) (Js.digits 10 (NilEmpty.string_of_uint u) None).
Proof.
  destruct u as [|l|l|l|l|l|l|l|l|l|l]; try (split; reflexivity);
    destruct l; split; reflexivity.
Qed.

Lemma to_uint_digits (p : positive) :
  NilZero.string_of_uint (Pos.to_uint p) = NilEmpty.string_of_uint (Pos.to_uint p) /\
  Js.digits 10 (NilEmpty.string_of_uint (Pos.to_uint p)) None = Some (Z.pos p).
Proof.
  assert (Hne : Pos.to_uint p <> Decimal.Nil).
  { intros E. pose proof (DecimalPos.Unsigned.of_to p) as H. rewrite E in H. discriminate. }
  split.
  - destruct (Pos.to_uint p); [congruence | reflexivity ..].
  - now rewrite (digits_start _ Hne), digits_of_uint, DecimalPos.Unsigned.of_to.
Qed.

Lemma parseInt_of_toString (n : Z) : Js.parseInt (Js.toString n) = Some n.
Proof.
  unfold Js.toString. destruct n as [|p|p]; [reflexivity | |];
    cbn [Z.to_int NilZero.string_of_int];
    destruct (to_uint_digits p) as [-> Hd].
  - now rewrite (proj1 (parseInt_unsigned _)), Hd.
  - now rewrite (proj2 (parseInt_unsigned _)), Hd.
Qed.

(** X1: [parseInt] reads back every safe integer from its [toString]; so
    typing the decimal form of a safe integer into the key-count input sets
    the field to that integer, whatever it held. *)
Theorem parseInt_toString_round_trip (n : Z) (Hsafe : Js.isSafeInteger n) :
  Js.parseInt (Js.toString n) = Some n /\
  forall current, changeKeyCount (Js.toString n) current = CountNumber n.
Proof.
  split; [apply parseInt_of_toString|].
  intros current. unfold changeKeyCount.
  pose proof (parseInt_of_toString n) as H.
  destruct (Js.toString n) as [|c rest]; [discriminate|]. now rewrite H.
Qed.

(** ** What each event changes *)

Lemma handleSubmit_keeps (srv : Server) (s : Page) :
  form (handleSubmit srv s) = form s /\
  profile (handleSubmit srv s) = profile s /\
  generatedKeys (handleSubmit srv s) = generatedKeys s /\
  toasts (handleSubmit srv s) = toasts s /\
  clipboard (handleSubmit srv s) = clipboard s.
Proof.
  unfold handleSubmit. destruct (generateKeySchema (form s)) as [issues|values].
  - repeat split.
  - destruct (run srv (mutationFn values)) as [trace outcome]. repeat split.
Qed.

Lemma settle_keeps_form (s : Page) :
  form (match pending s with
        | Some (inr data) => onSuccess data (setPending s None)
        | Some (inl error) => onError error (setPending s None)
        | None => s
        end) = form s.
Proof.
  destruct (pending s) as [[error|data]|]; try reflexivity.
  unfold onSuccess. destruct (keys data) as [[|first more]|]; reflexivity.
Qed.

Lemma step_dayTier (generateRandomKey : string -> string) (s : Page) (e : Event) :
  f_dayTier (form (step generateRandomKey s e))
  = match e with
    | SelectDayTier i => choose dayTierOptions i (f_dayTier (form s))
    | _ => f_dayTier (form s)
    end.
Proof.
  destruct e; unfold step; try reflexivity.
  - unfold handleGenerateRandomKey. destruct (f_game (form s)); reflexivity.
  - destruct (submitDisabled (ResellerGenerate s)); [reflexivity|].
    now rewrite (proj1 (handleSubmit_keeps srv s)).
  - now rewrite settle_keeps_form.
  - destruct (nth_error (generatedKeys s) item); reflexivity.
Qed.

Lemma step_game (generateRandomKey : string -> string) (s : Page) (e : Event) :
  f_game (form (step generateRandomKey s e))
  = match e with
    | SelectGame i => choose gameOptions i (f_game (form s))
    | _ => f_game (form s)
    end.
Proof.
  destruct e; unfold step; try reflexivity.
  - unfold handleGenerateRandomKey. destruct (f_game (form s)) eqn:E; [|simpl]; auto.
  - destruct (submitDisabled (ResellerGenerate s)); [reflexivity|].
    now rewrite (proj1 (handleSubmit_keeps srv s)).
  - now rewrite settle_keeps_form.
  - destruct (nth_error (generatedKeys s) item); reflexivity.
Qed.

(** The requests an event adds to the log: only an accepted click on submit
    adds any, and it adds the trace of the mutation. *)
Lemma step_sent (generateRandomKey : string -> string) (s : Page) (e : Event) :
  sent (step generateRandomKey s e)
  = (sent s ++
     match e with
     | ClickSubmit srv =>
         if submitDisabled (ResellerGenerate s) then []
         else match generateKeySchema (form s) with
              | inr values => fst (run srv (mutationFn values))
              | inl _ => []
              end
     | _ => []
     end)%list.
Proof.
  destruct e; unfold step; try (now rewrite app_nil_r).
  - unfold handleGenerateRandomKey. destruct (f_game (form s)); now rewrite app_nil_r.
  - destruct (submitDisabled (ResellerGenerate s)); [now rewrite app_nil_r|].
    unfold handleSubmit. destruct (generateKeySchema (form s)) as [issues|values].
    + now rewrite app_nil_r.
    + now destruct (run srv (mutationFn values)).
  - destruct (pending s) as [[error|data]|]; try (now rewrite app_nil_r).
    unfold onSuccess. destruct (keys data) as [[|first more]|]; now rewrite app_nil_r.
  - destruct (nth_error (generatedKeys s) item); now rewrite app_nil_r.
Qed.

(** A property of the initial page that every event keeps holds after any
    sequence of events. *)
Lemma after_invariant (generateRandomKey : string -> string) (P : Page -> Prop) :
  P initialPage ->
  (forall s e, P s -> P (step generateRandomKey s e)) ->
  forall events, P (after generateRandomKey events).
Proof.
  intros Hinit Hstep events. unfold after.
  generalize initialPage Hinit. induction events as [|e events IH]; intros s Hs; simpl.
  - exact Hs.
  - apply IH. now apply Hstep.
Qed.

(** ** The day select *)

Lemma day_option_tier (x : string) :
  In x dayTierOptions ->
  exists t, In t DAY_CREDIT_TIERS /\ x = Js.toString (days t) /\ x <> "" /\
            findTier (Js.parseInt x) = Some t.
Proof.
  unfold dayTierOptions. intros H. apply in_map_iff in H. destruct H as (t & <- & Hin).
  exists t. split; [exact Hin|]. split; [reflexivity|].
  rewrite parseInt_of_toString. split; [|now apply findTier_days].
  intros E. pose proof (parseInt_of_toString (days t)) as H. rewrite E in H. discriminate.
Qed.

Lemma mutation_asks_session (srv : Server) (values : GenerateKeyValues) (tier : Tier) :
  findTier (Js.parseInt (dayTier values)) = Some tier ->
  exists rest, fst (run srv (mutationFn values)) = SessionRequest :: rest.
Proof.
  intros Ht. unfold mutationFn. rewrite Ht. simpl.
  run_cases srv; eexists; reflexivity.
Qed.

(** X2: after any sequence of events the day field holds the value of one
    of the five items of the day select, so the display and the mutation
    find the same tier, and a submission that passes the schema gets past
    the tier lookup and asks for the session. *)
Theorem day_field_always_selects_a_tier
  (generateRandomKey : string -> string) (events : list Event) :
  let f := form (after generateRandomKey events) in
  exists t,
    In t DAY_CREDIT_TIERS /\
    f_dayTier f = Js.toString (days t) /\
    selectedDays f = Some (days t) /\
    findTier (Js.parseInt (f_dayTier f)) = Some t /\
    forall values srv,
      generateKeySchema f = inr values ->
      exists rest, fst (run srv (mutationFn values)) = SessionRequest :: rest.
Proof.
  cbv zeta.
  assert (Hopt : In (f_dayTier (form (after generateRandomKey events))) dayTierOptions).
  { apply (after_invariant generateRandomKey
             (fun s => In (f_dayTier (form s)) dayTierOptions)).
    - vm_compute. auto 10.
    - intros s e Hs. rewrite step_dayTier. destruct e; try exact Hs.
      apply choose_In; [apply incl_refl | exact Hs]. }
  destruct (day_option_tier _ Hopt) as (t & Hin & Hstr & Hne & Hfind).
  exists t. split; [exact Hin|]. split; [exact Hstr|].
  split; [|split; [exact Hfind|]].
  - rewrite (selectedDays_chosen _ Hne). rewrite Hstr. apply parseInt_of_toString.
  - intros values srv Hv. apply (mutation_asks_session srv values t).
    destruct (schema_fields _ _ Hv) as (_ & _ & -> & _). exact Hfind.
Qed.

(** ** The requests and the errors of the mutation *)

Lemma orMessage_nonempty (m : option string) (fallback : string) :
  fallback <> "" -> orMessage m fallback <> "".
Proof.
  intros Hf. destruct m as [[|c rest]|]; simpl; [exact Hf | discriminate | exact Hf].
Qed.

Lemma orMessage_given (text fallback : string) :
  text <> "" -> orMessage (Some text) fallback = text.
Proof.
  destruct text; [congruence | reflexivity].
Qed.

Lemma orMessage_again (m : option string) (fallback : string) :
  fallback <> "" ->
  orMessage (Some (orMessage m fallback)) fallback = orMessage m fallback.
Proof.
  intros Hf. apply orMessage_given. now apply orMessage_nonempty.
Qed.

(** The three ways a run of the mutation can go. *)
Lemma run_mutation_cases (srv : Server) (values : GenerateKeyValues) :
  (findTier (Js.parseInt (dayTier values)) = None /\
   run srv (mutationFn values) = ([], inl "Invalid day tier selected")) \/
  (exists error, run srv (mutationFn values) = ([SessionRequest], inl error)) \/
  (exists tier ok sessionData userId outcome,
     findTier (Js.parseInt (dayTier values)) = Some tier /\
     session srv = Responded ok (inr sessionData) /\
     sessionUserId sessionData = Some userId /\
     run srv (mutationFn values)
     = ([SessionRequest; GenerateRequest (payloadOf values tier userId)], outcome)).
Proof.
  unfold mutationFn.
  destruct (findTier (Js.parseInt (dayTier values))) as [tier|] eqn:Ht; simpl;
    [right | left; split; reflexivity].
  destruct (session srv) as [e|ok [e|sd]] eqn:Hs; simpl;
    try (left; eexists; reflexivity).
  destruct (sessionUserId sd) as [uid|] eqn:Hu; simpl;
    [right | left; eexists; reflexivity].
  exists tier, ok, sd, uid.
  destruct (generate srv (payloadOf values tier uid)) as [e|[|] [e|body]]; simpl;
    eexists; repeat split; first [reflexivity | assumption].
Qed.

(** X3: a run of the mutation issues nothing (the day value has no tier),
    or the session request alone and then fails, or the session request
    followed by exactly one generation request, whose payload is built from
    the values, the tier found and the id of the session's user. *)
Theorem mutation_trace_shape (srv : Server) (values : GenerateKeyValues) :
  (findTier (Js.parseInt (dayTier values)) = None /\
   run srv (mutationFn values) = ([], inl "Invalid day tier selected")) \/
  (exists error, run srv (mutationFn values) = ([SessionRequest], inl error)) \/
  (exists tier ok sessionData userId outcome,
     findTier (Js.parseInt (dayTier values)) = Some tier /\
     session srv = Responded ok (inr sessionData) /\
     sessionUserId sessionData = Some userId /\
     run srv (mutationFn values)
     = ([SessionRequest; GenerateRequest (payloadOf values tier userId)], outcome)).
Proof.
  exact (run_mutation_cases srv values).
Qed.

(** X4: when the session answer is not authenticated, or has no user, or a
    user without an id (or with the id 0), the mutation stops after the
    session request with the session error; no generation request is
    issued. *)
Theorem missing_session_stops_mutation
  (srv : Server) (values : GenerateKeyValues) (tier : Tier)
  (ok : bool) (sessionData : SessionData)
  (Htier : findTier (Js.parseInt (dayTier values)) = Some tier)
  (Hsession : session srv = Responded ok (inr sessionData))
  (Hmissing : isAuthenticated sessionData = false \/
              user sessionData = None \/
              exists u, user sessionData = Some u /\ (id u = None \/ id u = Some 0)) :
  run srv (mutationFn values)
  = ([SessionRequest], inl "User session not found. Please log in again.").
Proof.
  assert (Hnone : sessionUserId sessionData = None).
  { unfold sessionUserId.
    destruct Hmissing as [-> | [Hu | (u & Hu & [Hi | Hi])]]; [reflexivity | ..];
      destruct (isAuthenticated sessionData); simpl; try reflexivity;
      rewrite Hu; try rewrite Hi; reflexivity. }
  unfold mutationFn. rewrite Htier. simpl. rewrite Hsession. simpl.
  now rewrite Hnone.
Qed.

(** X5: the message with which the mutation fails is never empty, so the
    error toast shows that message and never its own fallback text. *)
Theorem mutation_errors_have_messages
  (srv : Server) (values : GenerateKeyValues) (error : string)
  (Hfails : snd (run srv (mutationFn values)) = inl error) :
  error <> "" /\
  forall s, onError error s = addToast s (mkToast "Error" error Destructive).
Proof.
  assert (Hne : error <> "").
  { revert Hfails. unfold mutationFn.
    destruct (findTier (Js.parseInt (dayTier values))) as [tier|]; simpl;
      [|intros [= <-]; discriminate].
    run_cases srv; intros [= <-]; try discriminate;
      match goal with
      | |- match ?x with "" => _ | String _ _ => _ end <> _ => destruct x; discriminate
      end. }
  split; [exact Hne|]. intros s. unfold onError. now rewrite (orMessage_given _ _ Hne).
Qed.

(** X6: when the generation response is not [ok], the page, once the
    mutation has settled, shows a destructive toast with the message of the
    response body (or "Failed to generate key" when the body has none),
    keeps the keys it showed and the form, and is no longer pending. *)
Theorem server_refusal_is_shown
  (generateRandomKey : string -> string) (s : Page) (srv : Server)
  (values : GenerateKeyValues) (tier : Tier) (ok : bool) (sessionData : SessionData)
  (userId : Z) (body : GenerateBody)
  (Henabled : submitDisabled (ResellerGenerate s) = false)
  (Hvalid : generateKeySchema (form s) = inr values)
  (Htier : findTier (Js.parseInt (dayTier values)) = Some tier)
  (Hsession : session srv = Responded ok (inr sessionData))
  (Huser : sessionUserId sessionData = Some userId)
  (Hrefused : generate srv (payloadOf values tier userId) = Responded false (inr body)) :
  let s' := step generateRandomKey (step generateRandomKey s (ClickSubmit srv)) Settled in
  toasts s' =
    (toasts s ++ [mkToast "Error" (orMessage (message body) "Failed to generate key")
                          Destructive])%list /\
  generatedKeys s' = generatedKeys s /\
  form s' = form s /\
  isPending s' = false /\
  sent s' = (sent s ++ [SessionRequest; GenerateRequest (payloadOf values tier userId)])%list.
Proof.
  cbv zeta.
  pose proof (refusal_outcome srv values tier ok sessionData userId body
                Htier Hsession Huser Hrefused) as Hrun.
  rewrite orMessage_again in Hrun by discriminate.
  assert (Hsubmit : step generateRandomKey s (ClickSubmit srv) =
                    mkPage (form s) [] (profile s)
                           (Some (inl (orMessage (message body) "Failed to generate key")))
                           (generatedKeys s) (toasts s) (clipboard s)
                           (sent s ++ [SessionRequest;
                                       GenerateRequest (payloadOf values tier userId)])%list).
  { unfold step. rewrite Henabled. unfold handleSubmit. now rewrite Hvalid, Hrun. }
  rewrite Hsubmit. unfold step. cbn [pending]. unfold onError.
  rewrite orMessage_given by (apply orMessage_nonempty; discriminate).
  repeat split.
Qed.

(** X7: a request that fails on the network, or a session answer that
    cannot be parsed, ends the mutation with the message of that error (or
    "Failed to generate key" when it is empty); after a failed session
    request no generation request is issued. *)
Theorem network_failure_is_reported
  (srv : Server) (values : GenerateKeyValues) (tier : Tier) (error : string)
  (Htier : findTier (Js.parseInt (dayTier values)) = Some tier) :
  (session srv = Rejected error ->
   run srv (mutationFn values)
   = ([SessionRequest], inl (orMessage (Some error) "Failed to generate key"))) /\
  (forall ok, session srv = Responded ok (inl error) ->
   run srv (mutationFn values)
   = ([SessionRequest], inl (orMessage (Some error) "Failed to generate key"))) /\
  (forall ok sessionData userId,
     session srv = Responded ok (inr sessionData) ->
     sessionUserId sessionData = Some userId ->
     generate srv (payloadOf values tier userId) = Rejected error ->
     run srv (mutationFn values)
     = ([SessionRequest; GenerateRequest (payloadOf values tier userId)],
        inl (orMessage (Some error) "Failed to generate key"))).
Proof.
  unfold mutationFn. rewrite Htier. simpl. split; [|split].
  - intros ->. reflexivity.
  - intros ok ->. reflexivity.
  - intros ok sd uid -> Hu Hg. simpl. rewrite Hu. simpl. now rewrite Hg.
Qed.

(** ** The cost pre-check, further *)

Lemma lt_false_iff (x y : Q) : Js.lt x y = false <-> (y <= x)%Q.
Proof.
  unfold Js.lt. rewrite negb_false_iff. apply Qle_bool_iff.
Qed.

Lemma tier_credits_positive (t : Tier) : In t DAY_CREDIT_TIERS -> (0 < credits t)%Q.
Proof.
  simpl. intros [<-|[<-|[<-|[<-|[<-|[]]]]]]; reflexivity.
Qed.

Lemma costPerKey_nonneg (f : FormState) : (0 <= costPerKey f)%Q.
Proof.
  unfold costPerKey. apply orZero_nonneg. intros q Hq.
  destruct (findTier (selectedDays f)) as [t|] eqn:E; [|discriminate].
  injection Hq as <-. apply Qlt_le_weak, tier_credits_positive.
  exact (proj1 (findTier_In _ _ E)).
Qed.

Lemma totalCredits_tier (s : Page) (d : Z) (c : Q) :
  selectedDays (form s) = Some d -> tierCost d = Some c ->
  totalCredits (form s) = (c * inject_Z (countToNumber (f_keyCount (form s))))%Q /\
  (0 < c)%Q.
Proof.
  intros Hdays Hcost. destruct (tierCost_tier _ _ Hcost) as (t & Hin & <- & <- & _).
  split; [|now apply tier_credits_positive].
  unfold totalCredits. now rewrite (costPerKey_tier _ _ Hin Hdays).
Qed.

Lemma sufficient_view (s : Page) :
  insufficient s = false ->
  alertTitle (ResellerGenerate s) = "Cost Information" /\
  needMore (ResellerGenerate s) = None /\
  submitDisabled (ResellerGenerate s) = isPending s /\
  submitLabel (ResellerGenerate s) = (if isPending s then Generating else GenerateKeysLabel).
Proof.
  intros H. unfold ResellerGenerate; simpl. rewrite H, orb_false_r. repeat split.
Qed.

(** X8: whenever the available credits cover the cost of the selected tier
    times the key count, the alert is the plain cost information without a
    shortage, and the submit button is disabled only while a mutation is
    pending; otherwise it reads "GENERATE KEYS". *)
Theorem sufficient_credits_allow_submission
  (s : Page) (d : Z) (c : Q)
  (Hdays : selectedDays (form s) = Some d)
  (Hcost : tierCost d = Some c)
  (Hcovers : (c * inject_Z (countToNumber (f_keyCount (form s))) <= availableCredits s)%Q) :
  let view := ResellerGenerate s in
  alertTitle view = "Cost Information" /\
  needMore view = None /\
  submitDisabled view = isPending s /\
  submitLabel view = (if isPending s then Generating else GenerateKeysLabel).
Proof.
  cbv zeta. apply sufficient_view. unfold insufficient.
  rewrite (proj1 (totalCredits_tier _ _ _ Hdays Hcost)). now apply lt_false_iff.
Qed.

(** X9: while the profile has not been fetched, or when it holds no
    credits, every request for at least one key of a tier of the table is
    blocked: the button is disabled and a click on it changes nothing. *)
Theorem missing_profile_blocks_submission
  (s : Page) (d : Z) (c : Q) (n : Z)
  (Hprofile : profile s = None \/
              exists p, profile s = Some p /\ (profileCredits p == 0)%Q)
  (Hdays : selectedDays (form s) = Some d)
  (Hcost : tierCost d = Some c)
  (Hcount : f_keyCount (form s) = CountNumber n)
  (Hpos : 1 <= n) :
  availableCredits s = 0%Q /\
  submitDisabled (ResellerGenerate s) = true /\
  alertTitle (ResellerGenerate s) = "Insufficient Credits!" /\
  forall generateRandomKey srv, step generateRandomKey s (ClickSubmit srv) = s.
Proof.
  assert (Hzero : availableCredits s = 0%Q).
  { unfold availableCredits. destruct Hprofile as [-> | (p & -> & Hp)]; [reflexivity|].
    simpl. apply Qeq_bool_iff in Hp. now rewrite Hp. }
  destruct (totalCredits_tier _ _ _ Hdays Hcost) as [Htotal Hc].
  assert (Hins : insufficient s = true).
  { unfold insufficient. rewrite Hzero, Htotal, Hcount. apply lt_true. simpl.
    apply Qmult_lt_0_compat; [exact Hc|].
    change 0%Q with (inject_Z 0). rewrite <- Zlt_Qlt. lia. }
  split; [exact Hzero|].
  unfold step, ResellerGenerate; simpl. rewrite Hins, orb_true_r. repeat split.
Qed.

(** X10: with the key-count input left blank the computed total is 0, so
    (credits being non-negative) the pre-check does not block; the schema
    then rejects the submission with a type issue on the key count and
    nothing is sent. *)
Theorem blank_key_count_is_rejected
  (s : Page) (srv : Server)
  (Hblank : f_keyCount (form s) = CountBlank)
  (Hcredits : forall p, profile s = Some p -> (0 <= profileCredits p)%Q) :
  (totalCredits (form s) == 0)%Q /\
  insufficient s = false /\
  submitDisabled (ResellerGenerate s) = isPending s /\
  exists issues,
    generateKeySchema (form s) = inl issues /\
    In (KeyCountName, "Expected number, received string") issues /\
    handleSubmit srv s =
      mkPage (form s) issues (profile s) (pending s) (generatedKeys s) (toasts s)
             (clipboard s) (sent s).
Proof.
  assert (Htotal : (totalCredits (form s) == 0)%Q).
  { unfold totalCredits. rewrite Hblank. simpl. apply Qmult_0_r. }
  assert (Hins : insufficient s = false).
  { unfold insufficient. apply lt_false_iff. rewrite Htotal. unfold availableCredits.
    apply orZero_nonneg. intros q Hq.
    destruct (profile s) as [p|]; [|discriminate].
    injection Hq as <-. now apply Hcredits. }
  split; [exact Htotal|]. split; [exact Hins|].
  split; [exact (proj1 (proj2 (proj2 (sufficient_view _ Hins))))|].
  assert (Hschema : exists issues,
             generateKeySchema (form s) = inl issues /\
             In (KeyCountName, "Expected number, received string") issues).
  { unfold generateKeySchema. rewrite Hblank.
    match goal with
    | |- context [match ?l with [] => _ | _ => _ end] =>
        assert (Hin : In (KeyCountName, "Expected number, received string") l)
          by (repeat (apply in_or_app; right); now left);
        destruct l as [|i l']; [contradiction|]
    end.
    eexists; split; [reflexivity | exact Hin]. }
  destruct Hschema as (issues & Hs & Hin). exists issues.
  split; [exact Hs|]. split; [exact Hin|]. now apply handleSubmit_invalid.
Qed.

(** X14: lowering the key count never turns an affordable request into an
    unaffordable one: with the same profile and day field, if the pre-check
    passes for [n] keys it passes for every [m <= n]. *)
Theorem fewer_keys_stay_affordable
  (s s' : Page) (m n : Z)
  (Hprofile : profile s' = profile s)
  (Hday : f_dayTier (form s') = f_dayTier (form s))
  (Hn : f_keyCount (form s) = CountNumber n)
  (Hm : f_keyCount (form s') = CountNumber m)
  (Hle : m <= n)
  (Haffordable : insufficient s = false) :
  insufficient s' = false /\
  (totalCredits (form s') <= totalCredits (form s))%Q.
Proof.
  assert (Hcost : costPerKey (form s') = costPerKey (form s)).
  { unfold costPerKey, selectedDays. now rewrite Hday. }
  assert (Htotal : (totalCredits (form s') <= totalCredits (form s))%Q).
  { unfold totalCredits. rewrite Hcost, Hn, Hm. simpl countToNumber.
    rewrite !(Qmult_comm (costPerKey (form s))).
    apply Qmult_le_compat_r; [rewrite <- Zle_Qle; exact Hle | apply costPerKey_nonneg]. }
  split; [|exact Htotal].
  unfold insufficient in *. apply lt_false_iff in Haffordable. apply lt_false_iff.
  unfold availableCredits in *. rewrite Hprofile.
  eapply Qle_trans; [exact Htotal | exact Haffordable].
Qed.

(** ** What the page sends, and when *)

Lemma schema_needs_game (f : FormState) :
  f_game f = "" -> exists issues, generateKeySchema f = inl issues.
Proof.
  intros Hg. destruct (generateKeySchema f) as [issues|values] eqn:E; [now exists issues|].
  destruct (schema_fields _ _ E) as (_ & _ & _ & _ & _ & Hne & _). contradiction.
Qed.

Lemma quiet_without_game (generateRandomKey : string -> string) (events : list Event) (s : Page) :
  forallb (fun e => negb (isSelectGame e)) events = true ->
  f_game (form s) = "" ->
  f_game (form (fold_left (step generateRandomKey) events s)) = "" /\
  sent (fold_left (step generateRandomKey) events s) = sent s.
Proof.
  revert s. induction events as [|e events IH]; intros s Hev Hg; simpl; [now split|].
  simpl in Hev. apply andb_true_iff in Hev. destruct Hev as [He Hev].
  assert (Hg' : f_game (form (step generateRandomKey s e)) = "").
  { rewrite step_game. destruct e; try exact Hg. discriminate. }
  assert (Hs' : sent (step generateRandomKey s e) = sent s).
  { rewrite step_sent. destruct e; try apply app_nil_r.
    destruct (submitDisabled (ResellerGenerate s)); [apply app_nil_r|].
    destruct (schema_needs_game _ Hg) as (issues & ->). apply app_nil_r. }
  destruct (IH _ Hev Hg') as [Hgame Hsent]. split; [exact Hgame | now rewrite Hsent].
Qed.

(** X11: as long as no game has been chosen in the game select, whatever
    else the reseller does (including clicks on submit), the mutation is
    never started: neither the session request nor a generation request is
    sent. *)
Theorem nothing_sent_before_a_game_is_selected
  (generateRandomKey : string -> string) (events : list Event)
  (Hnone : forallb (fun e => negb (isSelectGame e)) events = true) :
  sent (after generateRandomKey events) = [] /\
  f_game (form (after generateRandomKey events)) = "".
Proof.
  destruct (quiet_without_game generateRandomKey events initialPage Hnone eq_refl)
    as [Hgame Hsent].
  split; [exact Hsent | exact Hgame].
Qed.

(** X12: the list of displayed keys changes in one way only: a mutation
    settles with data whose keys list is not empty, and the list is then
    replaced by the key strings of that data.  Every other event, a failed
    generation included, leaves the list as it is. *)
Theorem displayed_keys_change_only_on_success
  (generateRandomKey : string -> string) (s : Page) (e : Event) :
  generatedKeys (step generateRandomKey s e) = generatedKeys s \/
  (e = Settled /\
   exists data ks,
     pending s = Some (inr data) /\ keys data = Some ks /\ ks <> [] /\
     generatedKeys (step generateRandomKey s e) = map keyString ks).
Proof.
  destruct e; unfold step; try (left; reflexivity).
  - left. unfold handleGenerateRandomKey. destruct (f_game (form s)); reflexivity.
  - left. destruct (submitDisabled (ResellerGenerate s)); [reflexivity|].
    exact (proj1 (proj2 (proj2 (handleSubmit_keeps srv s)))).
  - destruct (pending s) as [[error|data]|] eqn:Hp; try (left; reflexivity).
    unfold onSuccess. destruct (keys data) as [[|first more]|] eqn:Hk;
      try (left; reflexivity).
    right. split; [reflexivity|]. exists data, (first :: more).
    repeat split; [exact Hk | discriminate].
  - left. destruct (nth_error (generatedKeys s) item); reflexivity.
Qed.

(** X13: a submission and its settlement never reset the form: whatever
    the outcome, the fields (the custom key among them) are what they were
    before the click. *)
Theorem submission_keeps_the_form
  (generateRandomKey : string -> string) (s : Page) (srv : Server) :
  let s' := step generateRandomKey (step generateRandomKey s (ClickSubmit srv)) Settled in
  form s' = form s /\
  forall values, generateKeySchema (form s) = inr values ->
                 generateKeySchema (form s') = inr values.
Proof.
  cbv zeta.
  assert (Hsubmit : form (step generateRandomKey s (ClickSubmit srv)) = form s).
  { unfold step. destruct (submitDisabled (ResellerGenerate s)); [reflexivity|].
    exact (proj1 (handleSubmit_keeps srv s)). }
  assert (Hform : form (step generateRandomKey
                          (step generateRandomKey s (ClickSubmit srv)) Settled) = form s).
  { unfold step at 1. now rewrite settle_keeps_form. }
  split; [exact Hform|]. intros values Hv. now rewrite Hform.
Qed.

Lemma sessionUserId_nonzero (sessionData : SessionData) (userId : Z) :
  sessionUserId sessionData = Some userId ->
  userId <> 0 /\ isAuthenticated sessionData = true /\
  exists u, user sessionData = Some u /\ id u = Some userId.
Proof.
  unfold sessionUserId. destruct (isAuthenticated sessionData); simpl; [|discriminate].
  destruct (user sessionData) as [u|]; [|discriminate].
  destruct (id u) as [i|] eqn:Hi; [|discriminate].
  destruct (i =? 0) eqn:E; [discriminate|]. intros [= <-]. apply Z.eqb_neq in E.
  split; [exact E|]. split; [reflexivity|]. now exists u.
Qed.

Lemma orUndefined_not_empty (x : option string) : Js.orUndefined x <> Some "".
Proof.
  destruct x as [[|c rest]|]; discriminate.
Qed.

Lemma mutation_payload_wellFormed (srv : Server) (values : GenerateKeyValues) (p : Payload) :
  1 <= keyCount values ->
  In (GenerateRequest p) (fst (run srv (mutationFn values))) ->
  wellFormed p.
Proof.
  intros Hcount Hin.
  destruct (run_mutation_cases srv values)
    as [[_ Hrun] | [(error & Hrun) | (tier & ok & sd & uid & outcome & Ht & _ & Hu & Hrun)]];
    rewrite Hrun in Hin; simpl in Hin.
  - contradiction.
  - destruct Hin as [Hin|[]]. discriminate.
  - destruct Hin as [Hin|[Hin|[]]]; [discriminate|]. injection Hin as <-.
    unfold wellFormed, payloadOf; cbn [p_count p_days p_keyString p_resellerId].
    split; [exact Hcount|]. split; [|split].
    + exists (credits tier). unfold tierCost.
      destruct (findTier_In _ _ Ht) as [Hint _]. now rewrite (findTier_days _ Hint).
    + apply orUndefined_not_empty.
    + exact (proj1 (sessionUserId_nonzero _ _ Hu)).
Qed.

(** X15: every generation request the page ever sends asks for at least
    one key, for days that have a tier, with a key string that is absent or
    not empty, and for a reseller id that is not 0. *)
Theorem sent_payloads_are_well_formed
  (generateRandomKey : string -> string) (events : list Event) (p : Payload)
  (Hsent : In (GenerateRequest p) (sent (after generateRandomKey events))) :
  wellFormed p.
Proof.
  revert p Hsent.
  apply (after_invariant generateRandomKey
           (fun s => forall p, In (GenerateRequest p) (sent s) -> wellFormed p)).
  - intros p [].
  - intros s e Hs p. rewrite step_sent. intros Hin. apply in_app_or in Hin.
    destruct Hin as [Hin|Hin]; [now apply Hs|].
    destruct e; try contradiction.
    destruct (submitDisabled (ResellerGenerate s)); [contradiction|].
    destruct (generateKeySchema (form s)) as [issues|values] eqn:Hv; [contradiction|].
    apply (mutation_payload_wellFormed srv values p); [|exact Hin].
    exact (proj2 (proj2 (proj2 (proj2 (proj2 (proj2 (proj2 (schema_fields _ _ Hv)))))))).
Qed.

(** X16: the Random button without a game selected only shows the error
    toast; with a game selected it puts [generateRandomKey] of that game in
    the custom-key field, touches no other field, and a submission that
    then passes the schema takes that string as its custom key.  Either way
    it sends nothing. *)
Theorem random_button_fills_the_custom_key
  (generateRandomKey : string -> string) (s : Page) :
  let s' := step generateRandomKey s ClickRandom in
  sent s' = sent s /\
  (f_game (form s) = "" ->
   form s' = form s /\
   toasts s' = (toasts s ++ [mkToast "Error" "Please select a game first" Destructive])%list) /\
  (f_game (form s) <> "" ->
   form s' = mkForm (f_game (form s)) (f_deviceLimit (form s)) (f_dayTier (form s))
                    (f_keyCount (form s))
                    (Some (generateRandomKey (f_game (form s)))) /\
   toasts s' = toasts s /\
   forall values,
     generateKeySchema (form s') = inr values ->
     customKey values = Some (generateRandomKey (game values))).
Proof.
  cbv zeta. unfold step, handleGenerateRandomKey.
  destruct (f_game (form s)) as [|c rest] eqn:Hg.
  - split; [reflexivity|]. split; [intros _; split; reflexivity | congruence].
  - split; [reflexivity|]. split; [discriminate|]. intros _.
    split; [reflexivity|]. split; [reflexivity|].
    intros values Hv.
    destruct (schema_fields _ _ Hv) as (Hgame & _ & _ & _ & Hcustom & _).
    rewrite Hcustom, Hgame. reflexivity.
Qed.

Lemma generateRequests_app (l t : list Request) :
  generateRequests (l ++ t) = (generateRequests l + generateRequests t)%nat.
Proof.
  unfold generateRequests. now rewrite filter_app, length_app.
Qed.

Lemma mutation_posts_at_most_once (srv : Server) (values : GenerateKeyValues) :
  (generateRequests (fst (run srv (mutationFn values))) <= 1)%nat.
Proof.
  destruct (run_mutation_cases srv values)
    as [[_ Hrun] | [(error & Hrun) | (tier & ok & sd & uid & outcome & _ & _ & _ & Hrun)]];
    rewrite Hrun; unfold generateRequests; simpl; lia.
Qed.

Lemma step_in_flight (generateRandomKey : string -> string) (s : Page) (e : Event) :
  (generateRequests (sent (step generateRandomKey s e)) + (if isPending s then 1 else 0)
   <= generateRequests (sent s)
      + (match e with Settled => 1 | _ => 0 end)
      + (if isPending (step generateRandomKey s e) then 1 else 0))%nat.
Proof.
  destruct e; unfold step;
    try (unfold isPending, setForm; cbn [pending sent]; destruct (pending s); lia).
  - unfold handleGenerateRandomKey, isPending, setForm, addToast.
    destruct (f_game (form s)); cbn [pending sent]; destruct (pending s); lia.
  - destruct (submitDisabled (ResellerGenerate s)) eqn:Hd;
      [destruct (isPending s); lia|].
    assert (Hp : isPending s = false).
    { simpl in Hd. now apply orb_false_iff in Hd. }
    rewrite Hp. unfold handleSubmit.
    destruct (generateKeySchema (form s)) as [issues|values].
    + unfold isPending in *. cbn [pending sent]. destruct (pending s); lia.
    + pose proof (mutation_posts_at_most_once srv values) as Hone.
      destruct (run srv (mutationFn values)) as [trace outcome]. simpl in Hone.
      unfold isPending. cbn [sent pending]. rewrite generateRequests_app. lia.
  - unfold isPending, onError, addToast, setPending.
    destruct (pending s) as [[error|data]|]; cbn [pending sent]; try lia.
    unfold onSuccess. destruct (keys data) as [[|first more]|]; cbn [pending sent]; lia.
  - unfold isPending, copyToClipboard.
    destruct (nth_error (generatedKeys s) item); cbn [pending sent];
      destruct (pending s); lia.
Qed.

Lemma fold_in_flight (generateRandomKey : string -> string) (events : list Event)
      (s : Page) (k : nat) :
  (generateRequests (sent s) <= k + (if isPending s then 1 else 0))%nat ->
  (generateRequests (sent (fold_left (step generateRandomKey) events s))
   <= k + settledEvents events
      + (if isPending (fold_left (step generateRandomKey) events s) then 1 else 0))%nat.
Proof.
  revert s k. induction events as [|e events IH]; intros s k Hs; simpl.
  - unfold settledEvents; simpl. lia.
  - pose proof (step_in_flight generateRandomKey s e) as Hstep.
    specialize (IH (step generateRandomKey s e)
                   (k + match e with Settled => 1 | _ => 0 end)%nat).
    assert (Hcount : settledEvents (e :: events)
                     = ((match e with Settled => 1 | _ => 0 end) + settledEvents events)%nat)
      by (unfold settledEvents; destruct e; reflexivity).
    rewrite Hcount. lia.
Qed.

(** X18: the page never has two generation requests in flight: after any
    sequence of events, the generation requests sent are at most the
    mutations settled, plus one if a mutation is pending. *)
Theorem one_generation_in_flight
  (generateRandomKey : string -> string) (events : list Event) :
  let s := after generateRandomKey events in
  (generateRequests (sent s)
   <= settledEvents events + (if isPending s then 1 else 0))%nat.
Proof.
  cbv zeta.
  exact (fold_in_flight generateRandomKey events initialPage 0 (Nat.le_0_l _)).
Qed.

(** ** The schema *)

(** X17: the schema accepts a form exactly when a game, a device limit and
    a day value are present and the key count is a number that is at least
    1; the parsed values are then the fields themselves.  The custom key is
    not constrained. *)
Theorem schema_accepts_exactly (f : FormState) (values : GenerateKeyValues) :
  generateKeySchema f = inr values <->
  f_game f <> "" /\ f_deviceLimit f <> "" /\ f_dayTier f <> "" /\
  f_keyCount f = CountNumber (keyCount values) /\ 1 <= keyCount values /\
  values = mkValues (f_game f) (f_deviceLimit f) (f_dayTier f) (keyCount values)
                    (f_customKey f).
Proof.
  split.
  - intros H. destruct (schema_fields _ _ H) as (Hg & Hl & Hd & Hc & Hk & Hgn & Hdn & Hn).
    repeat split; auto.
    + rewrite <- Hl. intros E. unfold generateKeySchema in H.
      rewrite Hl in E. rewrite E in H. simpl in H.
      destruct (f_game f); simpl in H; destruct (f_dayTier f); simpl in H;
        destruct (f_keyCount f) as [n|]; try discriminate;
        destruct (n <? 1); discriminate.
    + destruct values; simpl in *. congruence.
  - intros (Hg & Hl & Hd & Hc & Hn & ->). unfold generateKeySchema.
    destruct (f_game f); [congruence|]. destruct (f_deviceLimit f); [congruence|].
    destruct (f_dayTier f); [congruence|]. rewrite Hc. simpl.
    apply Z.ltb_ge in Hn. now rewrite Hn.
Qed.

(** X19: when the schema rejects a form, its issues name exactly the
    offending fields: each of the three selects if and only if it is empty,
    and the key count if and only if it is below 1 or not a number. *)
Theorem schema_reports_offending_fields (f : FormState) (issues : list FieldError)
  (Hrejected : generateKeySchema f = inl issues) :
  (In (GameName, "Game selection is required") issues <-> f_game f = "") /\
  (In (DeviceLimitName, "Device limit is required") issues <-> f_deviceLimit f = "") /\
  (In (DayTierName, "Day selection is required") issues <-> f_dayTier f = "") /\
  (In (KeyCountName, "Must generate at least 1 key") issues <->
   exists n, f_keyCount f = CountNumber n /\ n < 1) /\
  (In (KeyCountName, "Expected number, received string") issues <->
   f_keyCount f = CountBlank) /\
  issues <> [].
Proof.
  revert Hrejected. unfold generateKeySchema.
  destruct (f_game f) as [|g0 g]; destruct (f_deviceLimit f) as [|l0 l];
    destruct (f_dayTier f) as [|d0 d]; destruct (f_keyCount f) as [n|];
    try (destruct (n <? 1) eqn:E; [apply Z.ltb_lt in E | apply Z.ltb_ge in E]);
    simpl; intros [= <-];
    repeat split; try discriminate; simpl;
    try (intros [H|H]; try discriminate; revert H);
    try (intros [H|H]; try discriminate; revert H);
    try (intros [H|H]; try discriminate; revert H);
    try (intros [H|H]; try discriminate; revert H);
    try contradiction; try tauto;
    try (intros _; eexists; split; [reflexivity | exact E]);
    try (intros (m & [= <-] & Hm); lia);
    try (intros (m & Hm & _); discriminate);
    auto 6.
Qed.

(** ** Further instances *)

(** Without an authenticated session only the session request is made. *)
Lemma anonymous_session_example :
  run anonymousServer (mutationFn sampleValues)
  = ([SessionRequest], inl "User session not found. Please log in again.").
Proof.
  refine (missing_session_stops_mutation anonymousServer sampleValues thirtyDays
            true (mkSession false None) eq_refl eq_refl _).
  left. reflexivity.
Defined.

(** The error of an unreachable server has a message. *)
Lemma offline_message_example : "Failed to fetch" <> "".
Proof.
  exact (proj1 (mutation_errors_have_messages offlineServer sampleValues
                  "Failed to fetch" eq_refl)).
Defined.

(** A refusal for lack of credits is shown as it came. *)
Lemma refusal_example :
  toasts (step (fun g => g)
            (step (fun g => g) (samplePage 10 sampleForm) (ClickSubmit refusingServer))
            Settled)
  = [mkToast "Error" "Insufficient credits" Destructive].
Proof.
  exact (proj1 (server_refusal_is_shown (fun g => g) (samplePage 10 sampleForm)
                  refusingServer sampleValues thirtyDays true
                  (mkSession true (Some (mkUser (Some 7)))) 7
                  (mkBody (Some "Insufficient credits") None)
                  eq_refl eq_refl eq_refl eq_refl eq_refl eq_refl)).
Defined.

(** An unreachable server: the session request fails and nothing is posted. *)
Lemma offline_example :
  run offlineServer (mutationFn sampleValues) = ([SessionRequest], inl "Failed to fetch").
Proof.
  exact (proj1 (network_failure_is_reported offlineServer sampleValues thirtyDays
                  "Failed to fetch" eq_refl) eq_refl).
Defined.

(** Ten credits cover two 30-day keys. *)
Lemma sufficient_credits_example :
  submitDisabled (ResellerGenerate (samplePage 10 sampleForm)) = false.
Proof.
  refine (proj1 (proj2 (proj2 (sufficient_credits_allow_submission
            (samplePage 10 sampleForm) 30 3%Q eq_refl eq_refl _)))).
  unfold Qle; simpl; lia.
Defined.

(** The page as first rendered cannot be submitted. *)
Lemma first_rendering_example :
  submitDisabled (ResellerGenerate initialPage) = true.
Proof.
  refine (proj1 (proj2 (missing_profile_blocks_submission initialPage 30 3%Q 1
            _ eq_refl eq_refl eq_refl _))).
  - left. reflexivity.
  - lia.
Defined.

(** A blank key count passes the pre-check and fails the schema. *)
Lemma blank_count_example :
  insufficient (samplePage 5 (mkForm "FREE FIRE" "1" "30" CountBlank (Some ""))) = false.
Proof.
  refine (proj1 (proj2 (blank_key_count_is_rejected
            (samplePage 5 (mkForm "FREE FIRE" "1" "30" CountBlank (Some "")))
            sampleServer eq_refl _))).
  intros p [= <-]. unfold Qle; simpl; lia.
Defined.

(** Submitting twice without a game sends nothing. *)
Lemma no_game_example :
  sent (after (fun g => g)
          [ProfileFetched (Some (mkProfile 10)); ChangeKeyCount "3";
           ClickSubmit sampleServer; SelectDayTier 4; ClickSubmit sampleServer]) = [].
Proof.
  exact (proj1 (nothing_sent_before_a_game_is_selected (fun g => g)
                  [ProfileFetched (Some (mkProfile 10)); ChangeKeyCount "3";
                   ClickSubmit sampleServer; SelectDayTier 4; ClickSubmit sampleServer]
                  eq_refl)).
Defined.

(** Three 30-day keys are affordable with 10 credits, hence two are. *)
Lemma fewer_keys_example :
  insufficient (samplePage 10 sampleForm) = false.
Proof.
  refine (proj1 (fewer_keys_stay_affordable
            (samplePage 10 (mkForm "FREE FIRE" "1" "30" (CountNumber 3) (Some "")))
            (samplePage 10 sampleForm) 2 3 eq_refl eq_refl eq_refl eq_refl _ eq_refl)).
  lia.
Defined.

(** The request of a FREE FIRE submission is well formed. *)
Lemma well_formed_example :
  wellFormed (mkPayload "FREE FIRE" (Some 100) 30 None 1 7).
Proof.
  refine (sent_payloads_are_well_formed (fun g => g)
    [ProfileFetched (Some (mkProfile 10)); SelectGame 2; SelectDeviceLimit 2;
     ClickSubmit sampleServer]
    (mkPayload "FREE FIRE" (Some 100) 30 None 1 7) _).
  vm_compute. right. left. reflexivity.
Defined.

(** The form as first rendered is rejected for its missing game only. *)
Lemma default_form_example :
  In (GameName, "Game selection is required") [(GameName, "Game selection is required")]
  <-> f_game defaultValues = "".
Proof.
  exact (proj1 (schema_reports_offending_fields defaultValues
                  [(GameName, "Game selection is required")] eq_refl)).
Defined.

(** ** Copying a generated key *)

Lemma page_after_success
      (generateRandomKey : string -> string) (s : Page) (srv : Server)
      (values : GenerateKeyValues) (data : GenerateBody) (ks : list KeyRecord) :
  submitDisabled (ResellerGenerate s) = false ->
  generateKeySchema (form s) = inr values ->
  snd (run srv (mutationFn values)) = inr data ->
  keys data = Some ks -> ks <> [] ->
  step generateRandomKey (step generateRandomKey s (ClickSubmit srv)) Settled
  = mkPage (form s) [] (profile s) None (map keyString ks)
           (toasts s ++ [mkToast "Success"
              ("Generated " ++ Js.toString (Z.of_nat (List.length ks)) ++ " key(s) successfully")
              DefaultToast])%list
           (clipboard s) (sent s ++ fst (run srv (mutationFn values)))%list.
Proof.
  intros Henabled Hvalid Hdata Hkeys Hne.
  destruct (run srv (mutationFn values)) as [trace outcome] eqn:Hrun.
  simpl in Hdata. subst outcome.
  assert (Hsubmit : step generateRandomKey s (ClickSubmit srv) =
                    mkPage (form s) [] (profile s) (Some (inr data)) (generatedKeys s)
                           (toasts s) (clipboard s) (sent s ++ trace)%list).
  { unfold step. rewrite Henabled. unfold handleSubmit. now rewrite Hvalid, Hrun. }
  rewrite Hsubmit. unfold step. cbn [pending].
  now rewrite (onSuccess_keys _ _ _ Hkeys Hne).
Qed.

(** X20: after a successful generation, the Copy button of the [i]-th
    displayed key puts the key string of the [i]-th returned record on the
    clipboard, confirms with the "Copied" toast and leaves the displayed
    list as it is. *)
Theorem copy_button_copies_the_returned_key
  (generateRandomKey : string -> string) (s : Page) (srv : Server)
  (values : GenerateKeyValues) (data : GenerateBody) (ks : list KeyRecord)
  (i : nat) (k : KeyRecord)
  (Henabled : submitDisabled (ResellerGenerate s) = false)
  (Hvalid : generateKeySchema (form s) = inr values)
  (Hdata : snd (run srv (mutationFn values)) = inr data)
  (Hkeys : keys data = Some ks)
  (Hnth : nth_error ks i = Some k) :
  let shown := step generateRandomKey (step generateRandomKey s (ClickSubmit srv)) Settled in
  let s' := step generateRandomKey shown (ClickCopy i) in
  clipboard s' = Some (keyString k) /\
  generatedKeys s' = map keyString ks /\
  toasts s' = (toasts shown ++ [mkToast "Copied" "Key copied to clipboard" DefaultToast])%list.
Proof.
  cbv zeta.
  assert (Hne : ks <> []) by (intros ->; destruct i; discriminate).
  rewrite (page_after_success generateRandomKey s srv values data ks
             Henabled Hvalid Hdata Hkeys Hne).
  unfold step at 1 2 3. cbn [generatedKeys].
  rewrite (map_nth_error keyString i ks Hnth). repeat split.
Qed.

(** The first of the two keys returned is the one copied. *)
Lemma copy_example :
  clipboard (step (fun g => g)
               (step (fun g => g)
                  (step (fun g => g) (samplePage 10 sampleForm) (ClickSubmit sampleServer))
                  Settled)
               (ClickCopy 0))
  = Some "FF-7Q2M9X".
Proof.
  exact (proj1 (copy_button_copies_the_returned_key (fun g => g)
                  (samplePage 10 sampleForm) sampleServer sampleValues
                  (mkBody None (Some [mkKey "FF-7Q2M9X" 30; mkKey "FF-K4T8ZB" 30]))
                  [mkKey "FF-7Q2M9X" 30; mkKey "FF-K4T8ZB" 30] 0 (mkKey "FF-7Q2M9X" 30)
                  eq_refl eq_refl eq_refl eq_refl eq_refl)).
Defined.

(** Typing 25 into the key-count input sets the count to 25. *)
Lemma key_count_typed_example :
  changeKeyCount "25" (CountNumber 1) = CountNumber 25.
Proof.
  refine (proj2 (parseInt_toString_round_trip 25 _) (CountNumber 1)).
  vm_compute. split; discriminate.
Defined.
